(** * CiefpTvTodayDE: the EPG ingestion pipeline of plugin.py

    A shallow embedding of the non-UI logic of
    [usr/lib/enigma2/python/Plugins/Extensions/CiefpTvTodayDE/plugin.py]:
    the cache decision of [downloadAndParseData], the channel and programme
    loops of [parseXMLData], the display-line builder [getEPGFromData] and
    the cursor search of [updateEPGAndPicon].

    Conventions of the model.
    - A Python [str] is a [string]; an [ascii] stands for the code point of
      the same number (U+0000 .. U+00FF).  [str.isalnum], [str.lower] and
      [str.isspace] follow Python on that range.  Module [Unicode] has
      [clean_channel_name] on strings of arbitrary code points.
    - Integer timestamps ([int(dt.timestamp())]) are [Z]; in the cursor
      search the float returned by [time.time()] is a rational [Q] (every
      finite float is one), and float arithmetic on it is taken exact.
    - The clock and the modification time of the cache file are binary64
      floats, and their difference is the float difference.
    - [strftime] and the time zone follow CPython on glibc.
    - A [dict] is a [gmap]; the insertion-ordered [epg_by_date] dict is an
      association list, its keys being sorted before use.
    - Exceptions are values of [exn] in the error monad [result]. *)

From Stdlib Require Import ZArith QArith Qabs Lia Lra String Ascii List Sorted.
From Stdlib Require Import PrimFloat.
From stdpp Require Import gmap strings list.

Open Scope Z_scope.

(** ** Exceptions *)

Inductive exn := ValueError | AttributeError | IndexError | KeyError | OSError.

Inductive result (A : Type) :=
| Ok (a : A)
| Raise (e : exn).
Arguments Ok {A} a.
Arguments Raise {A} e.

Definition rbind {A B} (m : result A) (f : A -> result B) : result B :=
  match m with
  | Ok a => f a
  | Raise e => Raise e
  end.

Notation "'try!' x ':=' m 'in' k" := (rbind m (fun x => k))
  (at level 10, x binder, m at level 100, k at level 200).

Definition of_option {A} (e : exn) (o : option A) : result A :=
  match o with
  | Some a => Ok a
  | None => Raise e
  end.

(** ** Python string primitives *)

Module PyStr.

Definition code (c : ascii) : Z := Z.of_N (N_of_ascii c).

Definition in_range (lo hi : Z) (c : ascii) : bool :=
  (lo <=? code c) && (code c <=? hi).

(** [str.isalnum] on one character: letters, decimal digits and the
    numeric characters of Latin-1. *)
Definition isalnum (c : ascii) : bool :=
  in_range 48 57 c || in_range 65 90 c || in_range 97 122 c
  || (code c =? 170) || in_range 178 179 c || (code c =? 181)
  || in_range 185 186 c || in_range 188 190 c
  || in_range 192 214 c || in_range 216 246 c || in_range 248 255 c.

Definition isupper (c : ascii) : bool :=
  in_range 65 90 c || in_range 192 214 c || in_range 216 222 c.

(** [str.lower] on one character. *)
Definition lower (c : ascii) : ascii :=
  if isupper c then ascii_of_N (N_of_ascii c + 32) else c.

(** [str.isspace] on one character. *)
Definition isspace (c : ascii) : bool :=
  in_range 9 13 c || in_range 28 32 c || (code c =? 133) || (code c =? 160).

Fixpoint lstrip (s : string) : string :=
  match s with
  | EmptyString => EmptyString
  | String c s' => if isspace c then lstrip s' else s
  end.

(** [rstrip] keeps a character when something that is not white space
    follows it or when it is not white space itself. *)
Fixpoint rstrip (s : string) : string :=
  match s with
  | EmptyString => EmptyString
  | String c s' =>
      match rstrip s' with
      | EmptyString => if isspace c then EmptyString else String c EmptyString
      | r => String c r
      end
  end.

Definition strip (s : string) : string := rstrip (lstrip s).

Definition startswith (s p : string) : bool := String.prefix p s.

(** [sub in s] *)
Fixpoint contains (sub s : string) : bool :=
  String.prefix sub s ||
  match s with
  | EmptyString => false
  | String _ s' => contains sub s'
  end.

Fixpoint rev_acc (acc s : string) : string :=
  match acc with
  | EmptyString => s
  | String c acc' => rev_acc acc' (String c s)
  end.

(** [s.split(sep)] for a non-empty separator, scanning left to right;
    [skip] counts the characters of a separator just recognised that are
    still to be dropped, [acc] is the current piece, reversed. *)
Fixpoint split_aux (sep : string) (skip : nat) (acc s : string) : list string :=
  match s with
  | EmptyString => [rev_acc acc EmptyString]
  | String c s' =>
      match skip with
      | S k => split_aux sep k acc s'
      | O =>
          if String.prefix sep s
          then rev_acc acc EmptyString :: split_aux sep (String.length sep - 1) EmptyString s'
          else split_aux sep 0 (String c acc) s'
      end
  end.

Definition split (sep s : string) : list string := split_aux sep 0 EmptyString s.

(** Truth value of a string: non-empty. *)
Definition truthy (s : string) : bool :=
  match s with EmptyString => false | _ => true end.

(** Truth value of an attribute returned by [Element.get]. *)
Definition truthy_opt (o : option string) : bool :=
  match o with Some s => truthy s | None => false end.

Fixpoint concat (l : list string) : string :=
  match l with
  | [] => EmptyString
  | s :: l' => s +:+ concat l'
  end.

End PyStr.

(** ** Naive datetimes, [strptime] and [strftime] *)

Module PyDatetime.

Record datetime := mkDatetime
  { year : Z; month : Z; day : Z; hour : Z; minute : Z; second : Z }.

Definition is_leap (y : Z) : bool :=
  ((y mod 4 =? 0) && negb (y mod 100 =? 0)) || (y mod 400 =? 0).

Definition days_in_month (y m : Z) : Z :=
  if m =? 2 then (if is_leap y then 29 else 28)
  else if (m =? 4) || (m =? 6) || (m =? 9) || (m =? 11) then 30
  else 31.

(** The checks of the [datetime] constructor (MINYEAR = 1, MAXYEAR = 9999). *)
Definition valid (dt : datetime) : bool :=
  (1 <=? year dt) && (year dt <=? 9999)
  && (1 <=? month dt) && (month dt <=? 12)
  && (1 <=? day dt) && (day dt <=? days_in_month (year dt) (month dt))
  && (0 <=? hour dt) && (hour dt <=? 23)
  && (0 <=? minute dt) && (minute dt <=? 59)
  && (0 <=? second dt) && (second dt <=? 59).

(** *** Formatting *)

Definition digit_char (n : Z) : ascii := ascii_of_N (Z.to_N (48 + n)).

Definition pad2 (n : Z) : string :=
  String (digit_char (n / 10)) (String (digit_char (n mod 10)) EmptyString).

Definition pad4 (n : Z) : string :=
  String (digit_char (n / 1000)) (String (digit_char (n / 100 mod 10))
    (String (digit_char (n / 10 mod 10)) (String (digit_char (n mod 10)) EmptyString))).

(** The decimal digits of a number from 0 to 9999, without padding. *)
Definition decimal (n : Z) : string :=
  if n <? 10 then String (digit_char n) EmptyString
  else if n <? 100 then pad2 n
  else if n <? 1000 then String (digit_char (n / 100)) (pad2 (n mod 100))
  else pad4 n.

(** [strftime('%Y%m%d')]; [%Y] is left to the C library, and glibc writes
    the year as a decimal number without padding: four digits from the
    year 1000 on, fewer before. *)
Definition strftime_Ymd (dt : datetime) : string :=
  decimal (year dt) +:+ pad2 (month dt) +:+ pad2 (day dt).

(** [strftime('%d.%m.%Y')] *)
Definition strftime_dmY (dt : datetime) : string :=
  pad2 (day dt) +:+ "." +:+ pad2 (month dt) +:+ "." +:+ decimal (year dt).

(** [strftime('%H:%M')] *)
Definition strftime_HM (dt : datetime) : string :=
  pad2 (hour dt) +:+ ":" +:+ pad2 (minute dt).

(** *** Parsing

    [strptime] compiles the format to a regular expression, takes the
    first match found by backtracking, and raises [ValueError] when
    nothing matches, when text remains after the match, or when the
    constructor rejects the fields.  A directive is a function from the
    input to its possible matches, most preferred first. *)

Definition directive (A : Type) := string -> list (A * string).

Definition digit_val (c : ascii) : option Z :=
  if PyStr.in_range 48 57 c then Some (PyStr.code c - 48) else None.

Definition between (lo hi x : Z) : bool := (lo <=? x) && (x <=? hi).

(** One digit in [[lo-hi]]. *)
Definition d1 (lo hi : Z) : directive Z := fun s =>
  match s with
  | String a r =>
      match digit_val a with
      | Some x => if between lo hi x then [(x, r)] else []
      | None => []
      end
  | EmptyString => []
  end.

(** Two digits, the first in [[lo1-hi1]], the second in [[lo2-hi2]]. *)
Definition d2 (lo1 hi1 lo2 hi2 : Z) : directive Z := fun s =>
  match s with
  | String a (String b r) =>
      match digit_val a, digit_val b with
      | Some x, Some y =>
          if between lo1 hi1 x && between lo2 hi2 y then [(10 * x + y, r)] else []
      | _, _ => []
      end
  | _ => []
  end.

Definition lit (c : ascii) : directive unit := fun s =>
  match s with
  | String a r => if Ascii.eqb a c then [(tt, r)] else []
  | EmptyString => []
  end.

Definition alt {A} (ps : list (directive A)) : directive A :=
  fun s => flat_map (fun p => p s) ps.

Definition seq {A B} (p : directive A) (f : A -> directive B) : directive B :=
  fun s => flat_map (fun '(a, r) => f a r) (p s).

Definition ret {A} (a : A) : directive A := fun s => [(a, s)].

(** [(?P<Y>\d\d\d\d)] *)
Definition dir_Y : directive Z :=
  seq (d2 0 9 0 9) (fun hi => seq (d2 0 9 0 9) (fun lo => ret (100 * hi + lo))).

(** [(?P<m>1[0-2]|0[1-9]|[1-9])] *)
Definition dir_m : directive Z := alt [d2 1 1 0 2; d2 0 0 1 9; d1 1 9].

(** [(?P<d>3[0-1]|[1-2]\d|0[1-9]|[1-9]| [1-9])] *)
Definition dir_d : directive Z :=
  alt [d2 3 3 0 1; d2 1 2 0 9; d2 0 0 1 9; d1 1 9;
       seq (lit " ") (fun _ => d1 1 9)].

(** [(?P<H>2[0-3]|[0-1]\d|\d)] *)
Definition dir_H : directive Z := alt [d2 2 2 0 3; d2 0 1 0 9; d1 0 9].

(** [(?P<M>[0-5]\d|\d)] *)
Definition dir_M : directive Z := alt [d2 0 5 0 9; d1 0 9].

(** [(?P<S>6[0-1]|[0-5]\d|\d)] *)
Definition dir_S : directive Z := alt [d2 6 6 0 1; d2 0 5 0 9; d1 0 9].

(** [\s+], greedy: the longest run of white space first. *)
Fixpoint spaces1 (s : string) : list (unit * string) :=
  match s with
  | String a r => if PyStr.isspace a then spaces1 r ++ [(tt, r)] else []
  | EmptyString => []
  end.

(** First match, which has to consume the whole input, then the
    constructor. *)
Definition finish (ms : list (datetime * string)) : option datetime :=
  match ms with
  | (dt, EmptyString) :: _ => if valid dt then Some dt else None
  | _ => None
  end.

(** [datetime.strptime(s, '%Y%m%d%H%M%S')] *)
Definition strptime_YmdHMS (s : string) : option datetime :=
  finish
    (seq dir_Y (fun y => seq dir_m (fun m => seq dir_d (fun d =>
     seq dir_H (fun h => seq dir_M (fun mi => seq dir_S (fun se =>
     ret (mkDatetime y m d h mi se))))))) s).

(** [datetime.strptime(s, '%Y%m%d')] *)
Definition strptime_Ymd (s : string) : option datetime :=
  finish
    (seq dir_Y (fun y => seq dir_m (fun m => seq dir_d (fun d =>
     ret (mkDatetime y m d 0 0 0)))) s).

(** [datetime.strptime(s, '%d.%m.%Y %H:%M')] *)
Definition strptime_dmY_HM (s : string) : option datetime :=
  finish
    (seq dir_d (fun d => seq (lit ".") (fun _ => seq dir_m (fun m =>
     seq (lit ".") (fun _ => seq dir_Y (fun y => seq spaces1 (fun _ =>
     seq dir_H (fun h => seq (lit ":") (fun _ => seq dir_M (fun mi =>
     ret (mkDatetime y m d h mi 0)))))))))) s).

(** *** Local time

    [datetime.fromtimestamp] and [int(dt.timestamp())] of a naive
    datetime depend on the time zone of the box.  [None] stands for the
    [ValueError] of a year outside 1..9999, which both raise also when
    the local time one day earlier, where they look for a fold, has
    such a year. *)
Record TimeZone := mkTimeZone
  { fromtimestamp : Z -> option datetime;
    timestamp : datetime -> option Z }.

Definition days_from_civil (y m d : Z) : Z :=
  let y' := if m <=? 2 then y - 1 else y in
  let era := y' / 400 in
  let yoe := y' - era * 400 in
  let doy := (153 * (if 2 <? m then m - 3 else m + 9) + 2) / 5 + d - 1 in
  let doe := yoe * 365 + yoe / 4 - yoe / 100 + doy in
  era * 146097 + doe - 719468.

Definition civil_from_days (z : Z) : Z * Z * Z :=
  let z' := z + 719468 in
  let era := z' / 146097 in
  let doe := z' - era * 146097 in
  let yoe := (doe - doe / 1460 + doe / 36524 - doe / 146096) / 365 in
  let doy := doe - (365 * yoe + yoe / 4 - yoe / 100) in
  let mp := (5 * doy + 2) / 153 in
  let d := doy - (153 * mp + 2) / 5 + 1 in
  let m := if mp <? 10 then mp + 3 else mp - 9 in
  let y := yoe + era * 400 in
  (if m <=? 2 then y + 1 else y, m, d).

(** Seconds from the epoch to 0001-01-02 00:00:00 UTC, the first
    second whose day before is still in the year 1. *)
Definition utc_first : Z := days_from_civil 1 1 2 * 86400.

Definition utc_fromtimestamp (ts : Z) : option datetime :=
  let '(y, m, d) := civil_from_days (ts / 86400) in
  let r := ts mod 86400 in
  if (utc_first <=? ts) && (y <=? 9999)
  then Some (mkDatetime y m d (r / 3600) (r mod 3600 / 60) (r mod 60))
  else None.

Definition utc_seconds (dt : datetime) : Z :=
  days_from_civil (year dt) (month dt) (day dt) * 86400
  + hour dt * 3600 + minute dt * 60 + second dt.

Definition utc_timestamp (dt : datetime) : option Z :=
  if utc_first <=? utc_seconds dt then Some (utc_seconds dt) else None.

(** The box running on UTC. *)
Definition UTC : TimeZone := mkTimeZone utc_fromtimestamp utc_timestamp.

End PyDatetime.

Import PyDatetime.

(** ** The element tree of the feed

    The data model of [xml.etree.ElementTree], which [lxml.etree] shares:
    an element has a tag, attributes, the text before its first child, its
    children, and the text that follows it inside its parent. *)

Module ElementTree.

Local Unset Elimination Schemes.
Inductive node :=
| Element (tag : string) (attrib : list (string * string))
          (text : option string) (children : list node) (tail : option string).
Local Set Elimination Schemes.

Definition tag (e : node) := let 'Element t _ _ _ _ := e in t.
Definition attrib (e : node) := let 'Element _ a _ _ _ := e in a.
Definition text (e : node) := let 'Element _ _ x _ _ := e in x.
Definition children (e : node) := let 'Element _ _ _ c _ := e in c.
Definition tail (e : node) := let 'Element _ _ _ _ x := e in x.

Fixpoint assoc (k : string) (l : list (string * string)) : option string :=
  match l with
  | [] => None
  | (k', v) :: l' => if String.eqb k' k then Some v else assoc k l'
  end.

(** [e.get(key)] *)
Definition get (e : node) (key : string) : option string := assoc key (attrib e).

(** [e.find(t)]: the first child with tag [t]. *)
Definition find (e : node) (t : string) : option node :=
  List.find (fun c => String.eqb (tag c) t) (children e).

(** The text nodes that are children of [e], in document order. *)
Definition text_nodes (e : node) : list string :=
  option_list (text e) ++ flat_map (fun c => option_list (tail c)) (children e).

(** [e.xpath('t[1]/text()')] *)
Definition xpath_text (e : node) (t : string) : list string :=
  match find e t with
  | Some c => text_nodes c
  | None => []
  end.

(** [e.xpath('t[1]/@a')] *)
Definition xpath_attr (e : node) (t a : string) : list string :=
  match find e t with
  | Some c => option_list (get c a)
  | None => []
  end.

(** [e.iter()]: the element and its descendants in document order. *)
Fixpoint iter (e : node) : list node :=
  match e with
  | Element _ _ _ cs _ => e :: flat_map iter cs
  end.

(** [tree.xpath('//t')] *)
Definition xpath_all (tree : node) (t : string) : list node :=
  List.filter (fun c => String.eqb (tag c) t) (iter tree).

(** [tree.findall('.//t')]: descendants only. *)
Definition findall (tree : node) (t : string) : list node :=
  List.filter (fun c => String.eqb (tag c) t) (flat_map iter (children tree)).

End ElementTree.

Import ElementTree.

(** ** Python's [sorted], [min] and [for] *)

Section Builtins.
Context {A : Type}.

(** [sorted] is stable: an element goes in front of the first element
    that is strictly greater or equal. *)
Fixpoint insert_sorted (leb : A -> A -> bool) (x : A) (l : list A) : list A :=
  match l with
  | [] => [x]
  | y :: l' => if leb x y then x :: y :: l' else y :: insert_sorted leb x l'
  end.

Definition py_sorted (leb : A -> A -> bool) (l : list A) : list A :=
  List.fold_right (insert_sorted leb) [] l.

(** [min(l, key=key)]: the first of the smallest elements. *)
Definition py_min (key : A -> Z) (x : A) (l : list A) : A :=
  List.fold_left (fun best y => if key y <? key best then y else best) l x.

Fixpoint enumerate_from (i : nat) (l : list A) : list (nat * A) :=
  match l with
  | [] => []
  | x :: l' => (i, x) :: enumerate_from (S i) l'
  end.

Definition enumerate (l : list A) : list (nat * A) := enumerate_from 0 l.

(** [for x in iter: body]: an exception leaves the loop with what the
    earlier rounds have done to the state. *)
Fixpoint for_each {S : Type} (body : A -> S -> result S) (iter : list A) (st : S)
  : S * option exn :=
  match iter with
  | [] => (st, None)
  | x :: rest =>
      match body x st with
      | Ok st' => for_each body rest st'
      | Raise e => (st, Some e)
      end
  end.
End Builtins.

(** ** The records of the plugin *)

Module Channel.
Record t := mk
  { id : string; title : string; alias : string; logo : string;
    icon : option string }.
End Channel.

Module Programme.
Record t := mk
  { title : string; desc : string; category : string; icon : option string;
    stop_timestamp : option Z; start_timestamp : Z; start_date : string }.
End Programme.

(** The lines of the programme pane: [self.epgLines], [self.epgScrollPos]
    and the list that [self["epgInfo"]] shows. *)
Module Screen.
Record t := mk
  { epgLines : list string; epgScrollPos : nat; epgInfo : list string }.
End Screen.

(** [CACHE_TIME = 86400], as the float an age is compared with. *)
Definition CACHE_TIME : float := 86400%float.

Definition nl : string := String (ascii_of_N 10) EmptyString.

(** [clean_channel_name] *)
Definition clean_channel_name (name : string) : string :=
  PyStr.strip
    (PyStr.concat
       (List.map (fun e => if PyStr.isalnum e || Ascii.eqb e "."
                           then String (PyStr.lower e) EmptyString
                           else EmptyString)
                 (list_ascii_of_string name))).

(** ** [clean_channel_name] beyond U+00FF

    A [str] as the list of its code points.  What [clean_channel_name]
    asks of a character, [c.isalnum()], [c.lower()] and [c.isspace()], is
    read from a table of the Unicode database; [None] stands for a
    character that the table at hand does not cover. *)

Module Unicode.

Record character := mkCharacter
  { isalnum : bool; lower : list N; isspace : bool }.

Definition database := N -> option character.

Section Database.
Variable db : database.

(** [e.lower() if e.isalnum() or e == '.' else ''] *)
Definition kept (e : N) : option (list N) :=
  match db e with
  | Some c => Some (if isalnum c || (e =? 46)%N then lower c else [])
  | None => None
  end.

(** [''.join(... for e in name)] *)
Fixpoint join (name : list N) : option (list N) :=
  match name with
  | [] => Some []
  | e :: rest =>
      match kept e, join rest with
      | Some k, Some j => Some (k ++ j)
      | _, _ => None
      end
  end.

Fixpoint lstrip (s : list N) : option (list N) :=
  match s with
  | [] => Some []
  | e :: rest =>
      match db e with
      | Some c => if isspace c then lstrip rest else Some s
      | None => None
      end
  end.

Fixpoint rstrip (s : list N) : option (list N) :=
  match s with
  | [] => Some []
  | e :: rest =>
      match db e, rstrip rest with
      | Some c, Some [] => Some (if isspace c then [] else [e])
      | Some c, Some r => Some (e :: r)
      | _, _ => None
      end
  end.

Definition clean_channel_name (name : list N) : option (list N) :=
  match join name with
  | Some joined =>
      match lstrip joined with
      | Some s => rstrip s
      | None => None
      end
  | None => None
  end.

End Database.

(** The table of Python 3 on the characters up to U+00FF, on U+0130
    (capital I with dot above, which lowercases to "i" and U+0307) and
    on U+0307 (combining dot above). *)
Definition python : database := fun e =>
  if (e <=? 255)%N then
    let a := ascii_of_N e in
    Some (mkCharacter (PyStr.isalnum a) [N_of_ascii (PyStr.lower a)]
            (PyStr.isspace a))
  else if (e =? 304)%N then Some (mkCharacter true [105; 775]%N false)
  else if (e =? 775)%N then Some (mkCharacter false [775]%N false)
  else None.

(** The code points of a string of the model. *)
Definition codes (s : string) : list N :=
  List.map N_of_ascii (list_ascii_of_string s).

End Unicode.

(** ** The plugin *)

Record ParseState := mkParseState
  { channelData : list Channel.t;
    epgData : gmap string (list Programme.t) }.

(** How [parseXMLData] ends: the programme loop ran to its end, the
    "No channels found" return, or an exception caught by the outer
    handler. *)
Inductive outcome := Parsed | NoChannels | ParseError (e : exn).

Section Plugin.

(** Which XML library was imported at start-up. *)
Variable LXML_AVAILABLE : bool.
(** The time zone of the box. *)
Variable tz : TimeZone.

(** *** parseXMLData *)

(** [el.text.strip()] *)
Definition text_strip (el : node) : result string :=
  match text el with
  | Some t => Ok (PyStr.strip t)
  | None => Raise AttributeError
  end.

(** [icon.get('src') if icon is not None and not LXML_AVAILABLE
     else (icon[0] if icon else None)] *)
Definition icon_of (e : node) : option string :=
  if LXML_AVAILABLE then List.hd_error (xpath_attr e "icon" "src")
  else match find e "icon" with
       | Some ic => get ic "src"
       | None => None
       end.

(** [next((ch for ch in self.channelData if ch['id'] == channel_id), None)] *)
Definition next_channel (data : list Channel.t) (channel_id : string)
  : option Channel.t :=
  List.find (fun ch => String.eqb (Channel.id ch) channel_id) data.

(** The body of [for channel in channel_iter]. *)
Definition channel_body (channel : node) (st : ParseState) : result ParseState :=
  let channel_id := get channel "id" in
  let display_name_is_None :=
    if LXML_AVAILABLE then false
    else match find channel "display-name" with None => true | Some _ => false end in
  if negb (PyStr.truthy_opt channel_id) || display_name_is_None then Ok st
  else
    try! channel_name :=
      (if LXML_AVAILABLE
       then match xpath_text channel "display-name" with
            | t :: _ => Ok (PyStr.strip t)
            | [] => Raise IndexError
            end
       else match find channel "display-name" with
            | Some el => text_strip el
            | None => Raise AttributeError
            end) in
    Ok (mkParseState
          (channelData st ++
             [Channel.mk (default EmptyString channel_id) channel_name
                (clean_channel_name channel_name)
                (clean_channel_name channel_name +:+ ".png")
                (icon_of channel)])
          (<[channel_name := []]> (epgData st))).

(** The [try] block of the programme loop up to the append: the start
    timestamp, the stop timestamp and the start date. *)
Definition parse_times (start_time : string) (stop_time : option string)
  : result (Z * option Z * string) :=
  let time_str := List.hd EmptyString (PyStr.split " " start_time) in
  try! time_obj := of_option ValueError (strptime_YmdHMS time_str) in
  try! start_timestamp := of_option ValueError (timestamp tz time_obj) in
  try! stop :=
    (match stop_time with
     | Some stop =>
         if PyStr.truthy stop then
           let stop_time_str := List.hd EmptyString (PyStr.split " " stop) in
           try! stop_time_obj := of_option ValueError (strptime_YmdHMS stop_time_str) in
           try! stop_timestamp := of_option ValueError (timestamp tz stop_time_obj) in
           Ok (Some stop_timestamp)
         else Ok None
     | None => Ok None
     end) in
  Ok (start_timestamp, stop, strftime_Ymd time_obj).

(** The text of the first child [t], stripped, or a default. *)
Definition child_text (program : node) (t default_text : string) : result string :=
  if LXML_AVAILABLE
  then match xpath_text program t with
       | x :: _ => Ok (PyStr.strip x)
       | [] => Ok default_text
       end
  else match find program t with
       | Some el => text_strip el
       | None => Ok default_text
       end.

(** The body of [for program in program_iter]. *)
Definition program_body (program : node) (st : ParseState) : result ParseState :=
  let channel_id := get program "channel" in
  let start_time := get program "start" in
  let stop_time := get program "stop" in
  let title_present :=
    if LXML_AVAILABLE
    then match xpath_text program "title" with [] => false | _ => true end
    else match find program "title" with None => false | Some _ => true end in
  match channel_id, start_time with
  | Some cid, Some start =>
      if negb (PyStr.truthy cid && PyStr.truthy start && title_present) then Ok st
      else
        match next_channel (channelData st) cid with
        | None => Ok st
        | Some channel =>
            let channel_name := Channel.title channel in
            try! title := child_text program "title" "Nepoznat naslov" in
            try! desc := child_text program "desc" "Nema opisa" in
            try! category := child_text program "category" EmptyString in
            let icon := icon_of program in
            match parse_times start stop_time with
            | Ok (start_timestamp, stop_timestamp, start_date) =>
                match epgData st !! channel_name with
                | Some l =>
                    Ok (mkParseState (channelData st)
                          (<[channel_name :=
                               l ++ [Programme.mk title desc category icon
                                       stop_timestamp start_timestamp start_date]]>
                             (epgData st)))
                | None => Raise KeyError
                end
            | Raise ValueError => Ok st
            | Raise e => Raise e
            end
        end
  | _, _ => Ok st
  end.

Definition channel_iter (tree : node) : list node :=
  if LXML_AVAILABLE then xpath_all tree "channel" else findall tree "channel".

Definition program_iter (tree : node) : list node :=
  if LXML_AVAILABLE then xpath_all tree "programme" else findall tree "programme".

(** The two loops of [parseXMLData] on the iterators of the tree. *)
Definition parse_elements (channels programs : list node) : ParseState * outcome :=
  match for_each channel_body channels (mkParseState [] ∅) with
  | (st, Some e) => (st, ParseError e)
  | (st, None) =>
      match channelData st with
      | [] => (st, NoChannels)
      | _ =>
          match for_each program_body programs st with
          | (st', Some e) => (st', ParseError e)
          | (st', None) => (st', Parsed)
          end
      end
  end.

(** [parseXMLData], from the parsed document on: the channel list and
    the programme index it leaves in the screen, and how it ended. *)
Definition parseXMLData (tree : node) : ParseState * outcome :=
  parse_elements (channel_iter tree) (program_iter tree).

(** *** getEPGFromData *)

(** [if k not in d: d[k] = []] followed by [d[k].append(e)], on a dict
    kept in insertion order. *)
Fixpoint bucket_add {E} (d : list (string * list E)) (k : string) (e : E)
  : list (string * list E) :=
  match d with
  | [] => [(k, [e])]
  | (k', es) :: rest =>
      if String.eqb k' k then (k', es ++ [e]) :: rest
      else (k', es) :: bucket_add rest k e
  end.

(** [d[k]] *)
Fixpoint bucket {E} (d : list (string * list E)) (k : string) : option (list E) :=
  match d with
  | [] => None
  | (k', es) :: rest => if String.eqb k' k then Some es else bucket rest k
  end.

(** The first loop of [getEPGFromData]: [render] is what the [try] block
    makes of a programme, [None] when it raises [ValueError]. *)
Definition group_by_date {E} (render : Programme.t -> option E)
           (programs : list Programme.t) : list (string * list E) :=
  List.fold_left
    (fun epg_by_date program =>
       match render program with
       | Some entry => bucket_add epg_by_date (Programme.start_date program) entry
       | None => epg_by_date
       end)
    programs [].

(** The entry of a programme. *)
Definition entry_line (program : Programme.t) : option string :=
  match fromtimestamp tz (Programme.start_timestamp program) with
  | None => None
  | Some local =>
      let time_str := strftime_HM local in
      let entry := time_str +:+ " - " +:+ Programme.title program
                   +:+ " (" +:+ Programme.category program +:+ ")" in
      Some (if PyStr.truthy (Programme.desc program)
            then entry +:+ nl +:+ "  " +:+ Programme.desc program
            else entry)
  end.

Definition by_start_timestamp (x y : Programme.t) : bool :=
  Programme.start_timestamp x <=? Programme.start_timestamp y.

(** The second loop: a separator and the entries of each date. *)
Fixpoint emit_blocks (epg_by_date : list (string * list string))
         (dates : list string) : result (list string) :=
  match dates with
  | [] => Ok []
  | date_str :: rest =>
      try! date := of_option ValueError (strptime_Ymd date_str) in
      try! entries := of_option KeyError (bucket epg_by_date date_str) in
      try! more := emit_blocks epg_by_date rest in
      Ok (("--- " +:+ strftime_dmY date +:+ " ---") :: entries ++ more)
  end.

Definition getEPGFromData (data : gmap string (list Programme.t))
           (channel_name : string) : result (list string) :=
  match default [] (data !! channel_name) with
  | [] => Ok ["No EPG data for channel: " +:+ channel_name]
  | epglist =>
      let epg_by_date :=
        group_by_date entry_line (py_sorted by_start_timestamp epglist) in
      try! result := emit_blocks epg_by_date
                       (py_sorted String.leb (List.map fst epg_by_date)) in
      match result with
      | [] => Ok ["No valid EPG data for channel: " +:+ channel_name]
      | _ => Ok result
      end
  end.

(** *** updateEPGAndPicon: the cursor *)

(** [x < min_time_diff], which starts as [float('inf')]. *)
Definition below (x : Q) (min_time_diff : option Q) : bool :=
  match min_time_diff with
  | None => true
  | Some m => negb (Qle_bool m x)
  end.

(** [stop_time and program_date == current_date
     and start_time <= now <= stop_time] *)
Definition is_active (now : Q) (current_date : string) (program : Programme.t) : bool :=
  match Programme.stop_timestamp program with
  | None => false
  | Some stop_time =>
      negb (stop_time =? 0)
      && String.eqb (Programme.start_date program) current_date
      && Qle_bool (inject_Z (Programme.start_timestamp program)) now
      && Qle_bool now (inject_Z stop_time)
  end.

(** One round of the loop that looks for the programme on air; the
    state is [(min_time_diff, current_program)]. *)
Definition active_body (now : Q) (current_date : string)
           (acc : option Q * option Programme.t) (program : Programme.t)
  : option Q * option Programme.t :=
  if is_active now current_date program then
    let time_diff := Qabs (now - inject_Z (Programme.start_timestamp program)) in
    if below time_diff (fst acc) then (Some time_diff, Some program) else acc
  else acc.

Definition current_program (programs : list Programme.t) (now : Q)
           (current_date : string) : option Programme.t :=
  snd (List.fold_left (active_body now current_date)
         (py_sorted by_start_timestamp programs) (None, None)).

(** Lines the searches pass over: separators, the informational lines,
    and lines without [" - "]. *)
Definition is_entry (line : string) : bool :=
  negb (PyStr.startswith line "---" || PyStr.contains "No EPG data" line
        || PyStr.contains "No valid EPG data" line)
  && PyStr.contains " - " line.

(** The [try] block of the line search: the title cut out of the line
    equals the programme's and the time of the line, on the programme's
    local date, is less than a minute from its start. *)
Definition line_matches (program : Programme.t) (line : string) : bool :=
  let parts := PyStr.split " - " line in
  match parts !! 0%nat, parts !! 1%nat with
  | Some time_str, Some after =>
      let title := List.hd EmptyString (PyStr.split " (" after) in
      if String.eqb title (Programme.title program) then
        match fromtimestamp tz (Programme.start_timestamp program) with
        | None => false
        | Some local =>
            match strptime_dmY_HM (strftime_dmY local +:+ " " +:+ time_str) with
            | None => false
            | Some line_dt =>
                match timestamp tz line_dt with
                | None => false
                | Some line_time =>
                    Z.abs (line_time - Programme.start_timestamp program) <? 60
                end
            end
        end
      else false
  | _, _ => false
  end.

(** [for i, line in enumerate(self.epgLines)] up to its [break]. *)
Definition find_line (program : Programme.t) (epgLines : list string) : option nat :=
  fst <$> List.find (fun '(_, line) => is_entry line && line_matches program line)
            (enumerate epgLines).

(** [for i, line in reversed(list(enumerate(self.epgLines)))] up to its
    [break]. *)
Definition last_valid_line (epgLines : list string) : option nat :=
  fst <$> List.find (fun '(_, line) => is_entry line) (List.rev (enumerate epgLines)).

Definition future_programs (programs : list Programme.t) (current_date : string)
  : list Programme.t :=
  List.filter (fun p => String.leb current_date (Programme.start_date p)) programs.

(** The first search: [(current_index, found_current)] after it. *)
Definition active_match (programs : list Programme.t) (epgLines : list string)
           (now : Q) (current_date : string) : option nat :=
  match current_program programs now current_date with
  | Some program => find_line program epgLines
  | None => None
  end.

(** The second search, entered when [found_current] is false and
    [future_programs] is not empty. *)
Definition next_upcoming (programs : list Programme.t) (epgLines : list string)
           (current_date : string) : option nat :=
  match future_programs programs current_date with
  | [] => None
  | p :: ps => find_line (py_min Programme.start_timestamp p ps) epgLines
  end.

(** [current_index] at the end of [updateEPGAndPicon]. *)
Definition current_index (programs : list Programme.t) (epgLines : list string)
           (now : Q) (current_date : string) : nat :=
  match active_match programs epgLines now current_date with
  | Some i => i
  | None =>
      match future_programs programs current_date with
      | [] => default 0%nat (last_valid_line epgLines)
      | _ => default 0%nat (next_upcoming programs epgLines current_date)
      end
  end.

(** [updateEPGAndPicon]: [current] is what [getCurrent()] gives, the
    title under the cursor of the channel list or [None] for an empty
    list.  The result is the screen it leaves; [loadPicon] and the
    selection calls on the widget change none of its three fields. *)
Definition updateEPGAndPicon (data : gmap string (list Programme.t))
           (screen : Screen.t) (current : option string) (now : Q)
           (current_date : string) : result Screen.t :=
  match current with
  | Some channel_name =>
      if PyStr.truthy channel_name then
        try! epgLines := getEPGFromData data channel_name in
        match epgLines with
        | [] => Ok (Screen.mk epgLines (Screen.epgScrollPos screen)
                      (Screen.epgInfo screen))
        | _ =>
            Ok (Screen.mk epgLines
                  (current_index (default [] (data !! channel_name)) epgLines
                     now current_date)
                  epgLines)
        end
      else Ok (Screen.mk (Screen.epgLines screen) (Screen.epgScrollPos screen)
                 ["Select a channel to view EPG"])
  | None => Ok (Screen.mk (Screen.epgLines screen) (Screen.epgScrollPos screen)
                  ["Select a channel to view EPG"])
  end.

End Plugin.

Arguments bucket_add {E} d k e.
Arguments bucket {E} d k.
Arguments group_by_date {E} render programs.

(** *** downloadAndParseData: the cache file *)

(** The cache file: the text that was written to it and its modification
    time. *)
Record File := mkFile { contents : string; mtime : float }.

(** What the outside world does during one call: whether the cache file
    can be read, the decoded body of the HTTP response or the exception of
    the request, whether the cache file can be written, the modification
    time a write gives the file, and what is left of the file by a write
    that fails. *)
Record World := mkWorld
  { read_ok : bool;
    response : result string;
    write_ok : bool;
    write_time : float;
    failed_write : option File }.

(** What one call does: the text handed to [parseXMLData], if any,
    whether an HTTP request was made, and the cache file afterwards. *)
Record Fetch := mkFetch
  { xml_data : option string;
    requested : bool;
    cache_after : option File }.

Definition CR : ascii := ascii_of_N 13.
Definition LF : ascii := ascii_of_N 10.

(** [f.read()] on a file opened with [open(cache_file, 'r')]: text mode
    with universal newlines, which hands ["\r\n"] and ["\r"] over as
    ["\n"]. *)
Fixpoint read_text (s : string) : string :=
  match s with
  | EmptyString => EmptyString
  | String c s' =>
      if Ascii.eqb c CR then
        match s' with
        | String c' s'' =>
            if Ascii.eqb c' LF then String LF (read_text s'')
            else String LF (read_text s')
        | EmptyString => String LF EmptyString
        end
      else String c (read_text s')
  end.

(** [time.time() - os.path.getmtime(cache_file)], a difference of two
    floats. *)
Definition age (now : float) (f : File) : float := PrimFloat.sub now (mtime f).

(** [os.path.exists(cache_file)
     and (time.time() - os.path.getmtime(cache_file)) < CACHE_TIME] *)
Definition cache_fresh (cache : option File) (now : float) : bool :=
  match cache with
  | Some f => PrimFloat.ltb (age now f) CACHE_TIME
  | None => false
  end.

(** The request, the write of the cache file and the parse. *)
Definition download (cache : option File) (w : World) : Fetch :=
  match response w with
  | Ok body =>
      mkFetch (Some body) true
        (if write_ok w then Some (mkFile body (write_time w)) else failed_write w)
  | Raise _ => mkFetch None true cache
  end.

Definition downloadAndParseData (cache : option File) (now : float) (w : World)
  : Fetch :=
  match cache with
  | Some f =>
      if cache_fresh cache now && read_ok w
      then mkFetch (Some (read_text (contents f))) false cache
      else download cache w
  | None => download cache w
  end.

(** A run of calls, each with its clock and its world. *)
Fixpoint fetches (cache : option File) (calls : list (float * World)) : list Fetch :=
  match calls with
  | [] => []
  | (now, w) :: rest =>
      let r := downloadAndParseData cache now w in
      r :: fetches (cache_after r) rest
  end.

(** ** A small feed

    One channel, [de1] "Das Erste", and the programme of the scenario of
    the specification; used to run the functions above. *)

Definition leaf (t s : string) : node := Element t [] (Some s) [] None.

Definition channel_el (i name : string) : node :=
  Element "channel" [("id", i)] None [leaf "display-name" name] None.

Definition programme_el (c start stop title : string) : node :=
  Element "programme" [("channel", c); ("start", start); ("stop", stop)] None
          [leaf "title" title] None.

Definition news_el : node :=
  programme_el "de1" "20240101200000 +0000" "20240101210000 +0000" "News".

Definition feed : node :=
  Element "tv" [] None [channel_el "de1" "Das Erste"; news_el] None.

Definition das_erste : Channel.t :=
  Channel.mk "de1" "Das Erste" "daserste" "daserste.png" None.

Definition news : Programme.t :=
  Programme.mk "News" "Nema opisa" "" None (Some 1704142800) 1704139200 "20240101".

(** A programme element without a start attribute. *)
Definition no_start_el : node :=
  Element "programme" [("channel", "de1"); ("stop", "20240101210000 +0000")] None
          [leaf "title" "Lost"] None.

Definition feed_no_start : node :=
  Element "tv" [] None [channel_el "de1" "Das Erste"; news_el; no_start_el] None.

(** A programme element whose stop attribute is not a time. *)
Definition bad_stop_el : node :=
  programme_el "de1" "20240101200000 +0000" "garbage" "News".

Definition feed_bad_stop : node :=
  Element "tv" [] None [channel_el "de1" "Das Erste"; bad_stop_el] None.

(** Two channels with one title, and a programme on each. *)
Definition feed_same_title : node :=
  Element "tv" [] None
    [channel_el "de1" "Das Erste"; channel_el "de1.hd" "Das Erste";
     news_el;
     programme_el "de1.hd" "20240101210000 +0000" "20240101220000 +0000" "Film"]
    None.

Definition film : Programme.t :=
  Programme.mk "Film" "Nema opisa" "" None (Some 1704146400) 1704142800 "20240101".

(** A feed with Windows line ends, and a world in which everything
    succeeds and the cache file is written at time 0. *)
Definition crlf_body : string := "<tv>" +:+ String CR (String LF "</tv>").

Definition plain_body : string := "<tv>" +:+ String LF "</tv>".

Definition good_world (body : string) : World :=
  mkWorld true (Ok body) true 0%float None.

(** The lines of "Das Erste" in [feed], and 20:30 on that day. *)
Definition news_lines : list string :=
  ["--- 01.01.2024 ---"; "20:00 - News ()" +:+ nl +:+ "  Nema opisa"].

Definition half_past_eight : Q := inject_Z 1704141000.

(** A programme whose title holds the separator of the entry lines, at
    18:00 on the same day, its lines, and 17:00 on that day. *)
Definition dash : Programme.t :=
  Programme.mk "A - B" "Nema opisa" "" None (Some 1704135600) 1704132000 "20240101".

Definition dash_lines : list string :=
  ["--- 01.01.2024 ---"; "18:00 - A - B ()" +:+ nl +:+ "  Nema opisa"].

Definition five_o_clock : Q := inject_Z 1704128400.

(** A programme element that refers to a channel the feed does not have,
    one whose start is not a time, and a channel element without a name. *)
Definition orphan_el : node :=
  programme_el "zdf" "20240101200000 +0000" "20240101210000 +0000" "Heute".

Definition bad_start_el : node :=
  programme_el "de1" "tonight" "20240101210000 +0000" "News".

Definition nameless_channel_el : node :=
  Element "channel" [("id", "zdf")] None [] None.

Definition anonymous_channel_el : node :=
  Element "channel" [] None [leaf "display-name" "ZDF"] None.

Definition feed_nameless : node :=
  Element "tv" [] None [channel_el "de1" "Das Erste"; nameless_channel_el; news_el]
          None.

(** A programme of the year 10, and a feed with a programme of
    5 December 2021 and one of 21 November 202. *)
Definition old_el : node :=
  programme_el "de1" "00100102000000 +0000" "00100102010000 +0000" "Old".

Definition feed_old : node :=
  Element "tv" [] None [channel_el "de1" "Das Erste"; old_el] None.

Definition old : Programme.t :=
  Programme.mk "Old" "Nema opisa" "" None (Some (-61851510000)) (-61851513600)
    "100102".

Definition feed_mixed : node :=
  Element "tv" [] None
    [channel_el "de1" "Das Erste";
     programme_el "de1" "20211205200000 +0000" "20211205210000 +0000" "A";
     programme_el "de1" "02021121200000 +0000" "02021121210000 +0000" "B"]
    None.

Definition mixed : list Programme.t :=
  [Programme.mk "A" "Nema opisa" "" None (Some 1638738000) 1638734400 "20211205";
   Programme.mk "B" "Nema opisa" "" None (Some (-55764644400)) (-55764648000)
     "2021121"].

(** * Properties *)

(** ** The primitives on the feed's own data *)

Example split_dash : PyStr.split " - " "20:00 - A - B (x)" = ["20:00"; "A"; "B (x)"].
Proof. reflexivity. Qed.

Example split_trailing : PyStr.split " " "2024 +0100 " = ["2024"; "+0100"; ""].
Proof. reflexivity. Qed.

Example strip_both : PyStr.strip "  Das Erste  " = "Das Erste".
Proof. reflexivity. Qed.

Example contains_mid : PyStr.contains "No EPG data" "x No EPG data y" = true.
Proof. reflexivity. Qed.

Example strptime_feed :
  strptime_YmdHMS "20240101200000" = Some (mkDatetime 2024 1 1 20 0 0).
Proof. reflexivity. Qed.

Example strptime_short_seconds :
  strptime_YmdHMS "2024010120000" = Some (mkDatetime 2024 1 1 20 0 0).
Proof. reflexivity. Qed.

Example strptime_bad_day : strptime_YmdHMS "20240231200000" = None.
Proof. reflexivity. Qed.

Example strptime_line :
  strptime_dmY_HM "01.01.2024 20:00" = Some (mkDatetime 2024 1 1 20 0 0).
Proof. reflexivity. Qed.

Example utc_stamp : utc_timestamp (mkDatetime 2024 1 1 20 0 0) = Some 1704139200.
Proof. reflexivity. Qed.

Example utc_back :
  utc_fromtimestamp 1704139200 = Some (mkDatetime 2024 1 1 20 0 0).
Proof. reflexivity. Qed.

Example fmt_date : strftime_dmY (mkDatetime 2024 1 1 20 0 0) = "01.01.2024".
Proof. reflexivity. Qed.

Example alias_zdf : clean_channel_name "ZDF neo HD (de)" = "zdfneohdde".
Proof. reflexivity. Qed.

Example alias_dot : clean_channel_name "Sky Cinema 1.HD" = "skycinema1.hd".
Proof. reflexivity. Qed.

(** ** Loops *)

Section ForEach.
Context {A S : Type} (body : A -> S -> result S).

(** A property of the state kept by every round that ends normally is
    kept by the loop, however it ends. *)
Lemma for_each_invariant (P : S -> Prop) (iter : list A) :
  (forall x st st', P st -> body x st = Ok st' -> P st') ->
  forall st, P st -> P (fst (for_each body iter st)).
Proof.
  intros Hstep. induction iter as [|x rest IH]; intros st Hst; simpl; [assumption|].
  destruct (body x st) as [st'|e] eqn:Hb; simpl; [|assumption].
  apply IH. eapply Hstep; eassumption.
Qed.

(** A round that leaves every state as it is can be taken out of the
    loop. *)
Lemma for_each_skip (l1 l2 : list A) (x : A) :
  (forall st, body x st = Ok st) ->
  forall st, for_each body (l1 ++ x :: l2) st = for_each body (l1 ++ l2) st.
Proof.
  intros Hx. induction l1 as [|y l1 IH]; intros st; simpl.
  - now rewrite Hx.
  - destruct (body y st); [apply IH | reflexivity].
Qed.
End ForEach.

(** ** Channel aliases *)

(** The alias in the words of the specification: the title without the
    characters that are neither alphanumeric nor a dot, lowercased. *)
Definition keeps (e : ascii) : bool := PyStr.isalnum e || Ascii.eqb e ".".

Definition alias_of_title (title : string) : string :=
  string_of_list_ascii
    (List.map PyStr.lower (List.filter keeps (list_ascii_of_string title))).

(** A lowercase alphanumeric character or a dot. *)
Definition alias_char (c : ascii) : bool :=
  (PyStr.isalnum c && negb (PyStr.isupper c)) || Ascii.eqb c ".".

Lemma lower_alias_char (e : ascii) :
  keeps e = true ->
  alias_char (PyStr.lower e) = true /\ PyStr.isspace (PyStr.lower e) = false.
Proof.
  destruct e as [[] [] [] [] [] [] [] []]; vm_compute; intros H;
    first [discriminate H | split; reflexivity].
Qed.

Lemma rstrip_no_space (s : string) :
  Forall (fun c => PyStr.isspace c = false) (list_ascii_of_string s) ->
  PyStr.rstrip s = s.
Proof.
  induction s as [|c s IH]; simpl; intros H; [reflexivity|].
  inversion H as [|? ? Hc Hs]; subst. rewrite (IH Hs).
  destruct s; [now rewrite Hc | reflexivity].
Qed.

Lemma lstrip_no_space (s : string) :
  Forall (fun c => PyStr.isspace c = false) (list_ascii_of_string s) ->
  PyStr.lstrip s = s.
Proof.
  destruct s as [|c s]; simpl; intros H; [reflexivity|].
  inversion H as [|? ? Hc Hs]; subst. now rewrite Hc.
Qed.

Lemma join_filter (name : list ascii) :
  PyStr.concat
    (List.map (fun e => if PyStr.isalnum e || Ascii.eqb e "."
                        then String (PyStr.lower e) EmptyString
                        else EmptyString) name)
  = string_of_list_ascii (List.map PyStr.lower (List.filter keeps name)).
Proof.
  induction name as [|e name IH]; simpl; [reflexivity|].
  unfold keeps at 1. destruct (PyStr.isalnum e || Ascii.eqb e "."); simpl;
    now rewrite IH.
Qed.

Lemma alias_chars_of_title (title : string) :
  Forall (fun c => alias_char c = true /\ PyStr.isspace c = false)
         (list_ascii_of_string (alias_of_title title)).
Proof.
  unfold alias_of_title. rewrite list_ascii_of_string_of_list_ascii.
  induction (list_ascii_of_string title) as [|e l IH]; simpl; [constructor|].
  destruct (keeps e) eqn:He; simpl; [|assumption].
  constructor; [now apply lower_alias_char | assumption].
Qed.

Lemma clean_channel_name_spec (name : string) :
  clean_channel_name name = alias_of_title name.
Proof.
  unfold clean_channel_name. rewrite join_filter. fold (alias_of_title name).
  assert (H : Forall (fun c => PyStr.isspace c = false)
                (list_ascii_of_string (alias_of_title name))).
  { eapply Forall_impl; [apply alias_chars_of_title|]. now intros c [_ Hc]. }
  unfold PyStr.strip. now rewrite (lstrip_no_space _ H), (rstrip_no_space _ H).
Qed.

(** What a round of the channel loop leaves behind. *)
Lemma channel_body_inv (lxml : bool) (channel : node) (st st' : ParseState) :
  channel_body lxml channel st = Ok st' ->
  st' = st \/
  exists cid name,
    get channel "id" = Some cid /\ PyStr.truthy cid = true /\
    st' = mkParseState
            (channelData st ++
               [Channel.mk cid name (clean_channel_name name)
                  (clean_channel_name name +:+ ".png") (icon_of lxml channel)])
            (<[name := []]> (epgData st)).
Proof.
  unfold channel_body. intros H.
  destruct (get channel "id") as [cid|] eqn:Hid; simpl in H;
    [|injection H as <-; now left].
  destruct (PyStr.truthy cid) eqn:Hcid; simpl in H; [|injection H as <-; now left].
  match type of H with
  | (if ?b then _ else _) = _ => destruct b; [injection H as <-; now left|]
  end.
  match type of H with
  | rbind ?m _ = _ => destruct m as [name|e]; simpl in H; [|discriminate]
  end.
  injection H as <-. right. exists cid, name. auto.
Qed.

(** The programme loop does not touch the channel list. *)
Lemma program_body_channelData (lxml : bool) (tz : TimeZone) (program : node)
      (st st' : ParseState) :
  program_body lxml tz program st = Ok st' -> channelData st' = channelData st.
Proof.
  unfold program_body. intros H.
  repeat match type of H with
         | Ok _ = Ok _ => injection H as <-; reflexivity
         | Raise _ = Ok _ => discriminate H
         | rbind ?m _ = _ => destruct m; simpl in H
         | match ?x with _ => _ end = _ => destruct x; simpl in H
         end.
Qed.

Definition alias_ok (c : Channel.t) : Prop :=
  Channel.alias c = alias_of_title (Channel.title c) /\
  Forall (fun ch => alias_char ch = true) (list_ascii_of_string (Channel.alias c)).

Lemma channel_body_alias (lxml : bool) (channel : node) (st st' : ParseState) :
  Forall alias_ok (channelData st) ->
  channel_body lxml channel st = Ok st' ->
  Forall alias_ok (channelData st').
Proof.
  intros Hst H. apply channel_body_inv in H as [->|(cid & name & _ & _ & ->)];
    [assumption|]. simpl.
  apply Forall_app; split; [assumption|]. constructor; [|constructor].
  unfold alias_ok; simpl. rewrite clean_channel_name_spec. split; [reflexivity|].
  eapply Forall_impl; [apply alias_chars_of_title|]. now intros c [Hc _].
Qed.

(** A property of the state that the rounds of both loops keep holds
    when [parseXMLData] is over, however it ends. *)
Lemma parse_elements_invariant (lxml : bool) (tz : TimeZone) (P : ParseState -> Prop)
      (channels programs : list node) :
  P (mkParseState [] ∅) ->
  (forall x st st', P st -> channel_body lxml x st = Ok st' -> P st') ->
  (forall x st st', P st -> program_body lxml tz x st = Ok st' -> P st') ->
  P (fst (parse_elements lxml tz channels programs)).
Proof.
  intros H0 Hc Hp. unfold parse_elements.
  pose proof (for_each_invariant (channel_body lxml) P channels Hc _ H0) as H1.
  destruct (for_each (channel_body lxml) channels (mkParseState [] ∅))
    as [st [e|]]; simpl in *; [assumption|].
  destruct (channelData st); [assumption|].
  pose proof (for_each_invariant (program_body lxml tz) P programs Hp _ H1) as H2.
  destruct (for_each (program_body lxml tz) programs st) as [st' [e|]];
    assumption.
Qed.

(** On the strings of the model, whose characters are at most U+00FF:
    every channel record that [parseXMLData] produces has an alias made of
    lowercase alphanumeric characters and dots only, and the alias is the
    title of the record without the characters that are neither
    alphanumeric nor a dot, the others lowercased.  Titles with other
    characters are the matter of [Unicode.clean_channel_name] below. *)
Theorem latin1_alias_lowercase_alnum_dot (lxml : bool) (tz : TimeZone) (tree : node)
        (c : Channel.t) :
  In c (channelData (fst (parseXMLData lxml tz tree))) ->
  Channel.alias c = alias_of_title (Channel.title c) /\
  Forall (fun ch => alias_char ch = true) (list_ascii_of_string (Channel.alias c)).
Proof.
  intros Hin.
  assert (Hall : Forall alias_ok (channelData (fst (parseXMLData lxml tz tree)))).
  { apply (parse_elements_invariant lxml tz
             (fun st => Forall alias_ok (channelData st))).
    - constructor.
    - intros x st st'. apply channel_body_alias.
    - intros x st st' Hst Hb. now rewrite (program_body_channelData _ _ _ _ _ Hb). }
  rewrite Forall_forall in Hall. apply Hall. now apply list_elem_of_In.
Qed.

Lemma latin1_alias_lowercase_alnum_dot_witness :
  In das_erste (channelData (fst (parseXMLData true UTC feed))) /\
  Channel.alias das_erste = alias_of_title (Channel.title das_erste) /\
  Forall (fun ch => alias_char ch = true)
         (list_ascii_of_string (Channel.alias das_erste)).
Proof.
  assert (H : In das_erste (channelData (fst (parseXMLData true UTC feed)))).
  { vm_compute. left. reflexivity. }
  split; [exact H | exact (latin1_alias_lowercase_alnum_dot true UTC feed das_erste H)].
Defined.

(** ** The programme loop *)

Example parse_feed :
  parseXMLData true UTC feed
  = (mkParseState [das_erste] {["Das Erste" := [news]]}, Parsed).
Proof. vm_compute. reflexivity. Qed.

Example parse_feed_etree :
  parseXMLData false UTC feed
  = (mkParseState [das_erste] {["Das Erste" := [news]]}, Parsed).
Proof. vm_compute. reflexivity. Qed.

(** What a round of the programme loop that ends normally has done:
    nothing, or one record appended to the list stored under the title of
    the channel that the reference resolves to. *)
Lemma program_body_inv (lxml : bool) (tz : TimeZone) (program : node)
      (st st' : ParseState) :
  program_body lxml tz program st = Ok st' ->
  st' = st \/
  exists cid start channel title desc category ts stop date l,
    get program "channel" = Some cid /\
    get program "start" = Some start /\
    PyStr.truthy start = true /\
    next_channel (channelData st) cid = Some channel /\
    child_text lxml program "title" "Nepoznat naslov" = Ok title /\
    child_text lxml program "desc" "Nema opisa" = Ok desc /\
    child_text lxml program "category" EmptyString = Ok category /\
    parse_times tz start (get program "stop") = Ok (ts, stop, date) /\
    epgData st !! Channel.title channel = Some l /\
    st' = mkParseState (channelData st)
            (<[Channel.title channel :=
                 l ++ [Programme.mk title desc category (icon_of lxml program)
                         stop ts date]]> (epgData st)).
Proof.
  unfold program_body. intros H.
  destruct (get program "channel") as [cid|] eqn:Hcid;
    [|injection H as <-; now left].
  destruct (get program "start") as [start|] eqn:Hstart;
    [|injection H as <-; now left].
  destruct (PyStr.truthy cid); simpl in H; [|injection H as <-; now left].
  destruct (PyStr.truthy start) eqn:Ht; simpl in H; [|injection H as <-; now left].
  match type of H with
  | (if negb ?b then _ else _) = _ =>
      destruct b; simpl in H; [|injection H as <-; now left]
  end.
  destruct (next_channel (channelData st) cid) as [channel|] eqn:Hch;
    [|injection H as <-; now left].
  destruct (child_text lxml program "title" "Nepoznat naslov") as [title|]
    eqn:Htitle; simpl in H; [|discriminate].
  destruct (child_text lxml program "desc" "Nema opisa") as [desc|]
    eqn:Hdesc; simpl in H; [|discriminate].
  destruct (child_text lxml program "category" "") as [category|]
    eqn:Hcat; simpl in H; [|discriminate].
  destruct (parse_times tz start (get program "stop")) as [[[ts stop] date]|e]
    eqn:Hpt.
  - destruct (epgData st !! Channel.title channel) as [l|] eqn:Hl; [|discriminate].
    injection H as <-. right.
    exists cid, start, channel, title, desc, category, ts, stop, date, l.
    repeat split; auto.
  - destruct e; try discriminate. injection H as <-. now left.
Qed.

Lemma program_body_no_start (lxml : bool) (tz : TimeZone) (program : node) :
  get program "start" = None ->
  forall st, program_body lxml tz program st = Ok st.
Proof.
  intros H st. unfold program_body. rewrite H.
  now destruct (get program "channel").
Qed.

(** C3. A programme element without a start attribute leaves no trace:
    [parseXMLData] ends with the channel list, the programme index and the
    outcome it has on the same feed without that element, so no list of
    the index holds a record made from it. *)
Theorem missing_start_not_indexed (lxml : bool) (tz : TimeZone) (tree : node)
        (l1 l2 : list node) (e : node) :
  program_iter lxml tree = l1 ++ e :: l2 ->
  get e "start" = None ->
  parseXMLData lxml tz tree
  = parse_elements lxml tz (channel_iter lxml tree) (l1 ++ l2).
Proof.
  intros Hiter Hstart. unfold parseXMLData, parse_elements. rewrite Hiter.
  destruct (for_each (channel_body lxml) (channel_iter lxml tree)
              (mkParseState [] ∅)) as [st [x|]]; [reflexivity|].
  destruct (channelData st); [reflexivity|].
  rewrite (for_each_skip (program_body lxml tz) l1 l2 e
             (program_body_no_start lxml tz e Hstart)).
  reflexivity.
Qed.

Lemma missing_start_not_indexed_witness :
  program_iter true feed_no_start = [news_el] ++ no_start_el :: [] /\
  get no_start_el "start" = None /\
  parseXMLData true UTC feed_no_start
  = parse_elements true UTC (channel_iter true feed_no_start) ([news_el] ++ []).
Proof.
  assert (H1 : program_iter true feed_no_start = [news_el] ++ no_start_el :: [])
    by reflexivity.
  assert (H2 : get no_start_el "start" = None) by reflexivity.
  split; [exact H1|]. split; [exact H2|].
  exact (missing_start_not_indexed true UTC feed_no_start [news_el] [] no_start_el
           H1 H2).
Defined.

Example parse_feed_no_start :
  fst (parseXMLData true UTC feed_no_start)
  = mkParseState [das_erste] {["Das Erste" := [news]]}.
Proof. vm_compute. reflexivity. Qed.

(** ** Start and stop times *)

Lemma parse_times_stop_failure (tz : TimeZone) (start stop : string) :
  PyStr.truthy stop = true ->
  strptime_YmdHMS (List.hd EmptyString (PyStr.split " " stop)) = None ->
  exists e, parse_times tz start (Some stop) = Raise e /\ e = ValueError.
Proof.
  intros Ht Hs. unfold parse_times.
  destruct (strptime_YmdHMS (List.hd EmptyString (PyStr.split " " start)))
    as [t|]; simpl; [|now exists ValueError].
  destruct (timestamp tz t); simpl; [|now exists ValueError].
  rewrite Ht, Hs. simpl. now exists ValueError.
Qed.

Lemma parse_times_inv (tz : TimeZone) (start : string) (stop_attr : option string)
      (ts : Z) (stop : option Z) (date : string) :
  parse_times tz start stop_attr = Ok (ts, stop, date) ->
  exists t,
    strptime_YmdHMS (List.hd EmptyString (PyStr.split " " start)) = Some t /\
    timestamp tz t = Some ts /\ date = strftime_Ymd t /\
    (stop = None <-> PyStr.truthy_opt stop_attr = false).
Proof.
  unfold parse_times. intros H.
  destruct (strptime_YmdHMS (List.hd EmptyString (PyStr.split " " start)))
    as [t|]; simpl in H; [|discriminate].
  exists t. split; [reflexivity|].
  destruct (timestamp tz t) as [ts0|]; simpl in H; [|discriminate].
  destruct stop_attr as [s|]; simpl in *.
  - destruct (PyStr.truthy s); simpl in H.
    + destruct (strptime_YmdHMS (List.hd EmptyString (PyStr.split " " s)))
        as [t'|]; simpl in H; [|discriminate].
      destruct (timestamp tz t'); simpl in H; [|discriminate].
      injection H as <- <- <-. repeat split; intros; discriminate.
    + injection H as <- <- <-. repeat split; auto.
  - injection H as <- <- <-. repeat split; auto.
Qed.

(** C2, as the code has it. For a programme element whose start attribute
    parses: when its stop attribute is present, not empty, and does not
    parse, the round of the loop stores nothing (it leaves the state as it
    is, unless a child without text raised before the times were looked
    at), just as for a start time that does not parse; and a programme
    that is stored has its stop absent exactly when the stop attribute is
    missing or empty. *)
Theorem stop_parse_failure_drops (lxml : bool) (tz : TimeZone) (e : node)
        (start : string) (t : datetime) :
  get e "start" = Some start ->
  strptime_YmdHMS (List.hd EmptyString (PyStr.split " " start)) = Some t ->
  (forall stop,
      get e "stop" = Some stop -> PyStr.truthy stop = true ->
      strptime_YmdHMS (List.hd EmptyString (PyStr.split " " stop)) = None ->
      forall st,
        program_body lxml tz e st = Ok st \/
        program_body lxml tz e st = Raise AttributeError) /\
  (forall st st',
      program_body lxml tz e st = Ok st' ->
      st' = st \/
      exists channel l p,
        epgData st !! Channel.title channel = Some l /\
        st' = mkParseState (channelData st)
                (<[Channel.title channel := l ++ [p]]> (epgData st)) /\
        timestamp tz t = Some (Programme.start_timestamp p) /\
        (Programme.stop_timestamp p = None <->
         PyStr.truthy_opt (get e "stop") = false)).
Proof.
  intros Hstart Ht. split.
  - intros stop Hstop Htruthy Hfail st.
    destruct (parse_times_stop_failure tz start stop Htruthy Hfail) as (x & Hpt & ->).
    unfold program_body. rewrite Hstart, Hstop, Hpt.
    destruct (get e "channel") as [cid|]; [|now left].
    match goal with
    | |- context [if negb ?b then _ else _] => destruct b; simpl; [|now left]
    end.
    destruct (next_channel (channelData st) cid); [|now left].
    unfold child_text, text_strip.
    repeat match goal with
           | |- context [if lxml then _ else _] => destruct lxml
           | |- context [match ?x with _ => _ end] =>
               match x with
               | xpath_text _ _ => destruct x
               | find _ _ => destruct x
               | text _ => destruct x
               end
           end; simpl; auto.
  - intros st st' Hb.
    destruct (program_body_inv lxml tz e st st' Hb)
      as [->|(cid & start' & channel & title & desc & category & ts & stop & date
              & l & _ & Hs & _ & _ & _ & _ & _ & Hpt & Hl & ->)]; [now left|].
    right. rewrite Hstart in Hs. injection Hs as <-.
    destruct (parse_times_inv tz start _ ts stop date Hpt) as (t' & Ht' & Hts & _ & Hiff).
    rewrite Ht in Ht'. injection Ht' as <-.
    eexists channel, l, _. repeat split; [exact Hl | exact Hts | apply Hiff | apply Hiff].
Qed.

Lemma stop_parse_failure_drops_witness :
  get bad_stop_el "start" = Some "20240101200000 +0000" /\
  strptime_YmdHMS (List.hd EmptyString (PyStr.split " " "20240101200000 +0000"))
  = Some (mkDatetime 2024 1 1 20 0 0) /\
  (let st := mkParseState [das_erste] {["Das Erste" := []]} in
   program_body true UTC bad_stop_el st = Ok st \/
   program_body true UTC bad_stop_el st = Raise AttributeError).
Proof.
  assert (H1 : get bad_stop_el "start" = Some "20240101200000 +0000")
    by reflexivity.
  assert (H2 : strptime_YmdHMS
                 (List.hd EmptyString (PyStr.split " " "20240101200000 +0000"))
               = Some (mkDatetime 2024 1 1 20 0 0)) by reflexivity.
  split; [exact H1|]. split; [exact H2|].
  apply (proj1 (stop_parse_failure_drops true UTC bad_stop_el _ _ H1 H2) "garbage");
    reflexivity.
Defined.

(** C2, as stated, fails: the start of [bad_stop_el] parses, its stop is
    present and does not parse, and the programme is not in the index of
    its channel after the parse. *)
Lemma stop_parse_failure_counterexample :
  strptime_YmdHMS (List.hd EmptyString (PyStr.split " " "20240101200000 +0000"))
  = Some (mkDatetime 2024 1 1 20 0 0) /\
  get bad_stop_el "stop" = Some "garbage" /\
  strptime_YmdHMS (List.hd EmptyString (PyStr.split " " "garbage")) = None /\
  parseXMLData true UTC feed_bad_stop
  = (mkParseState [das_erste] {["Das Erste" := []]}, Parsed) /\
  parseXMLData false UTC feed_bad_stop
  = (mkParseState [das_erste] {["Das Erste" := []]}, Parsed).
Proof. repeat split; vm_compute; reflexivity. Qed.

(** ** Channels that share a title *)

Example parse_feed_same_title :
  parseXMLData true UTC feed_same_title
  = (mkParseState
       [das_erste;
        Channel.mk "de1.hd" "Das Erste" "daserste" "daserste.png" None]
       {["Das Erste" := [news; film]]},
     Parsed).
Proof. vm_compute. reflexivity. Qed.

(** ** The cache file *)

Lemma read_text_no_CR (s : string) :
  Forall (fun c => Ascii.eqb c CR = false) (list_ascii_of_string s) ->
  read_text s = s.
Proof.
  induction s as [|c s IH]; simpl; intros H; [reflexivity|].
  inversion H as [|? ? Hc Hs]; subst. rewrite Hc. now rewrite (IH Hs).
Qed.

(** The age that the code computes for the cache file, the float
    difference of the clock and the modification time, is below
    [CACHE_TIME]. *)
Definition young (now mtime : float) : Prop :=
  PrimFloat.ltb (PrimFloat.sub now mtime) CACHE_TIME = true.

(** A hit: the text read from the file, no request, the file untouched. *)
Lemma cache_hit (f : File) (now : float) (w : World) :
  young now (mtime f) -> read_ok w = true ->
  downloadAndParseData (Some f) now w
  = mkFetch (Some (read_text (contents f))) false (Some f).
Proof.
  unfold young. intros Hlt Hr. unfold downloadAndParseData, cache_fresh, age.
  now rewrite Hlt, Hr.
Qed.

Lemma fetches_hits (f : File) (calls : list (float * World)) :
  Forall (fun c => young (fst c) (mtime f) /\ read_ok (snd c) = true) calls ->
  Forall (fun r => r = mkFetch (Some (read_text (contents f))) false (Some f))
         (fetches (Some f) calls).
Proof.
  induction calls as [|[now w] calls IH]; intros H; [constructor|].
  inversion H as [|? ? [Hlt Hr] Hrest]; subst. cbn [fetches fst snd] in *.
  rewrite (cache_hit f now w Hlt Hr). cbn [cache_after].
  constructor; [reflexivity | now apply IH].
Qed.

(** C8, as the code has it. After a call that made the request and wrote
    the cache file, every later call for which the float difference of
    the clock and the modification time of the file is below 86400, and
    which is able to read the file, makes no request, leaves the file as
    it is, and hands on the text of the file as text mode reads it: with
    ["\r\n"] and ["\r"] turned into ["\n"].  A text without carriage
    returns comes back unchanged. *)
Theorem cache_round_trip (prev : option File) (now0 : float) (w0 : World)
        (body : string) (calls : list (float * World)) :
  requested (downloadAndParseData prev now0 w0) = true ->
  response w0 = Ok body ->
  write_ok w0 = true ->
  Forall (fun c => young (fst c) (write_time w0) /\ read_ok (snd c) = true) calls ->
  let first := downloadAndParseData prev now0 w0 in
  xml_data first = Some body /\
  cache_after first = Some (mkFile body (write_time w0)) /\
  Forall (fun r => xml_data r = Some (read_text body) /\ requested r = false
                   /\ cache_after r = cache_after first)
         (fetches (cache_after first) calls) /\
  (Forall (fun c => Ascii.eqb c CR = false) (list_ascii_of_string body) ->
   read_text body = body).
Proof.
  intros Hreq Hresp Hw Hcalls first.
  assert (Hfirst : first = mkFetch (Some body) true
                             (Some (mkFile body (write_time w0)))).
  { subst first. revert Hreq. unfold downloadAndParseData, download.
    rewrite Hresp, Hw. destruct prev as [f|]; [|reflexivity].
    destruct (cache_fresh (Some f) now0 && read_ok w0); [discriminate|reflexivity]. }
  rewrite Hfirst. simpl. repeat split; [|apply read_text_no_CR].
  pose proof (fetches_hits (mkFile body (write_time w0)) calls Hcalls) as H.
  eapply Forall_impl; [exact H|]. intros r ->. simpl. auto.
Qed.

Lemma cache_round_trip_witness :
  let calls := [(60%float, good_world EmptyString);
                (86399.5%float, good_world EmptyString)] in
  let first := downloadAndParseData None 0%float (good_world plain_body) in
  xml_data first = Some plain_body /\
  cache_after first = Some (mkFile plain_body 0%float) /\
  Forall (fun r => xml_data r = Some (read_text plain_body) /\ requested r = false
                   /\ cache_after r = cache_after first)
         (fetches (cache_after first) calls) /\
  (Forall (fun c => Ascii.eqb c CR = false) (list_ascii_of_string plain_body) ->
   read_text plain_body = plain_body).
Proof.
  intros calls.
  apply (cache_round_trip None 0%float (good_world plain_body) plain_body calls);
    try reflexivity.
  repeat constructor.
Defined.

(** C8, as stated, fails: a call writes [crlf_body] to the cache file, and
    the call a minute later, which makes no request, hands on another
    text. *)
Lemma cache_round_trip_counterexample :
  let first := downloadAndParseData None 0%float (good_world crlf_body) in
  let second := downloadAndParseData (cache_after first) 60%float
                  (good_world crlf_body) in
  xml_data first = Some crlf_body /\
  cache_after first = Some (mkFile crlf_body 0%float) /\
  requested second = false /\
  xml_data second = Some plain_body /\
  xml_data second <> Some crlf_body.
Proof. repeat split; vm_compute; congruence. Qed.

(** The age is a float: a file written at 0.7000000000000001 (the float
    [0x1.6666666666667p-1]) is, at 86400.7 ([0x1.5180b33333333p+16]), less
    than 24 hours old, but the difference of the two floats is 86400.0
    and the feed is requested again. *)
Example age_is_rounded :
  let f := mkFile plain_body 0x1.6666666666667p-1%float in
  age 0x1.5180b33333333p+16%float f = 86400%float /\
  requested (downloadAndParseData (Some f) 0x1.5180b33333333p+16%float
               (good_world plain_body)) = true.
Proof. split; reflexivity. Qed.

(** ** [sorted] and [enumerate] *)

Section SortedFacts.
Context {A : Type} (leb : A -> A -> bool).

Lemma insert_sorted_perm (x : A) (l : list A) :
  Permutation (insert_sorted leb x l) (x :: l).
Proof.
  induction l as [|y l IH]; simpl; [reflexivity|].
  destruct (leb x y); [reflexivity|].
  rewrite IH. apply perm_swap.
Qed.

Lemma py_sorted_perm (l : list A) : Permutation (py_sorted leb l) l.
Proof.
  induction l as [|x l IH]; simpl; [reflexivity|].
  unfold py_sorted in *. simpl. rewrite insert_sorted_perm. now rewrite IH.
Qed.

Lemma py_sorted_In (x : A) (l : list A) : In x (py_sorted leb l) <-> In x l.
Proof.
  split; apply Permutation_in; [|symmetry]; apply py_sorted_perm.
Qed.
End SortedFacts.

Lemma find_enumerate_from {A : Type} (f : nat * A -> bool) (l : list A) :
  forall (k i : nat) (x : A),
    List.find f (enumerate_from k l) = Some (i, x) ->
    (k <= i)%nat /\ l !! (i - k)%nat = Some x /\ f (i, x) = true.
Proof.
  induction l as [|y l IH]; intros k i x H; simpl in H; [discriminate|].
  destruct (f (k, y)) eqn:Hf.
  - injection H as <- <-. rewrite Nat.sub_diag. auto.
  - apply IH in H as (Hle & Hl & Hfx). split; [lia|]. split; [|assumption].
    replace (i - k)%nat with (S (i - S k)) by lia. exact Hl.
Qed.

Lemma find_enumerate {A : Type} (f : nat * A -> bool) (l : list A) (i : nat) (x : A) :
  List.find f (enumerate l) = Some (i, x) -> l !! i = Some x /\ f (i, x) = true.
Proof.
  intros H. apply find_enumerate_from in H as (_ & Hl & Hf).
  now rewrite Nat.sub_0_r in Hl.
Qed.

(** ** The programme on air *)

(** A programme is on air: its start date is today's, it has a stop
    time, and now lies between its start and its stop. *)
Definition on_air (now : Q) (current_date : string) (p : Programme.t) : Prop :=
  Programme.start_date p = current_date /\
  exists stop, Programme.stop_timestamp p = Some stop /\
    (inject_Z (Programme.start_timestamp p) <= now)%Q /\ (now <= inject_Z stop)%Q.

(** Distance of now from the start of a programme. *)
Definition time_diff (now : Q) (p : Programme.t) : Q :=
  Qabs (now - inject_Z (Programme.start_timestamp p)).

Lemma is_active_on_air (now : Q) (current_date : string) (p : Programme.t) :
  (0 < now)%Q ->
  is_active now current_date p = true <-> on_air now current_date p.
Proof.
  intros Hnow. unfold is_active, on_air.
  destruct (Programme.stop_timestamp p) as [stop|].
  - rewrite !andb_true_iff, negb_true_iff, Z.eqb_neq, String.eqb_eq,
      !Qle_bool_iff. split.
    + intros [[[_ Hd] Hs] He]. split; [assumption|]. now exists stop.
    + intros [Hd (stop' & Hst & Hs & He)]. injection Hst as <-.
      repeat split; try assumption. intros ->.
      apply (Qlt_not_le _ _ Hnow He).
  - split; [discriminate|]. now intros [_ (stop & Hst & _)].
Qed.

(** What the loop has found after the programmes [seen]. *)
Definition active_found (now : Q) (current_date : string) (seen : list Programme.t)
           (acc : option Q * option Programme.t) : Prop :=
  (acc = (None, None) /\
   forall q, In q seen -> is_active now current_date q = false) \/
  (exists p, acc = (Some (time_diff now p), Some p) /\ In p seen /\
     is_active now current_date p = true /\
     forall q, In q seen -> is_active now current_date q = true ->
               (time_diff now p <= time_diff now q)%Q).

Lemma active_body_found (now : Q) (current_date : string) (seen : list Programme.t)
      (acc : option Q * option Programme.t) (x : Programme.t) :
  active_found now current_date seen acc ->
  active_found now current_date (seen ++ [x]) (active_body now current_date acc x).
Proof.
  unfold active_body. fold (time_diff now x).
  intros [[-> Hnone]|(p & -> & Hin & Hact & Hmin)].
  - destruct (is_active now current_date x) eqn:Hx; simpl.
    + right. exists x. split; [reflexivity|]. split; [apply in_or_app; simpl; auto|].
      split; [assumption|]. intros q Hq Hqa. apply in_app_or in Hq as [Hq|[<-|[]]].
      * rewrite (Hnone q Hq) in Hqa. discriminate.
      * apply Qle_refl.
    + left. split; [reflexivity|]. intros q Hq.
      apply in_app_or in Hq as [Hq|[<-|[]]]; auto.
  - right. destruct (is_active now current_date x) eqn:Hx; simpl.
    + destruct (Qle_bool (time_diff now p) (time_diff now x)) eqn:Hle; simpl.
      * apply Qle_bool_iff in Hle. exists p. split; [reflexivity|].
        split; [apply in_or_app; auto|]. split; [assumption|].
        intros q Hq Hqa. apply in_app_or in Hq as [Hq|[<-|[]]]; auto.
      * assert (Hlt : (time_diff now x < time_diff now p)%Q).
        { apply Qnot_le_lt. intros H. apply Qle_bool_iff in H. congruence. }
        exists x. split; [reflexivity|]. split; [apply in_or_app; simpl; auto|].
        split; [assumption|]. intros q Hq Hqa.
        apply in_app_or in Hq as [Hq|[<-|[]]]; [|apply Qle_refl].
        eapply Qle_trans; [apply Qlt_le_weak, Hlt | now apply Hmin].
    + exists p. split; [reflexivity|]. split; [apply in_or_app; auto|].
      split; [assumption|]. intros q Hq Hqa.
      apply in_app_or in Hq as [Hq|[<-|[]]]; [auto | congruence].
Qed.

Lemma active_loop_found (now : Q) (current_date : string) (l : list Programme.t) :
  forall seen acc,
    active_found now current_date seen acc ->
    active_found now current_date (seen ++ l)
      (List.fold_left (active_body now current_date) l acc).
Proof.
  induction l as [|x l IH]; intros seen acc H; simpl.
  - now rewrite app_nil_r.
  - replace (seen ++ x :: l) with ((seen ++ [x]) ++ l)
      by now rewrite <- app_assoc.
    apply IH. now apply active_body_found.
Qed.

Lemma current_program_found (programs : list Programme.t) (now : Q)
      (current_date : string) :
  match current_program programs now current_date with
  | None => forall q, In q programs -> is_active now current_date q = false
  | Some p =>
      In p programs /\ is_active now current_date p = true /\
      forall q, In q programs -> is_active now current_date q = true ->
                (time_diff now p <= time_diff now q)%Q
  end.
Proof.
  unfold current_program.
  pose proof (active_loop_found now current_date
                (py_sorted by_start_timestamp programs) [] (None, None)) as H.
  simpl in H.
  destruct H as [[-> Hnone]|(p & -> & Hin & Hact & Hmin)].
  - left. split; [reflexivity|]. intros q [].
  - simpl. intros q Hq. apply Hnone. now apply py_sorted_In.
  - simpl. split; [now apply (py_sorted_In by_start_timestamp)|].
    split; [assumption|]. intros q Hq. apply Hmin. now apply py_sorted_In.
Qed.

(** ** The line of a programme *)

(** The conditions under which the search takes [line] for the line of
    [program]. *)
Definition accepted (tz : TimeZone) (program : Programme.t) (line : string) : Prop :=
  is_entry line = true /\
  exists time_str after local line_dt line_time,
    PyStr.split " - " line !! 0%nat = Some time_str /\
    PyStr.split " - " line !! 1%nat = Some after /\
    List.hd EmptyString (PyStr.split " (" after) = Programme.title program /\
    fromtimestamp tz (Programme.start_timestamp program) = Some local /\
    strptime_dmY_HM (strftime_dmY local +:+ " " +:+ time_str) = Some line_dt /\
    timestamp tz line_dt = Some line_time /\
    Z.abs (line_time - Programme.start_timestamp program) < 60.

Lemma line_matches_accepted (tz : TimeZone) (program : Programme.t) (line : string) :
  is_entry line = true -> line_matches tz program line = true ->
  accepted tz program line.
Proof.
  intros He H. split; [assumption|]. unfold line_matches in H.
  destruct (PyStr.split " - " line !! 0%nat) as [time_str|]; [|discriminate].
  destruct (PyStr.split " - " line !! 1%nat) as [after|]; [|discriminate].
  destruct (String.eqb _ (Programme.title program)) eqn:Ht; [|discriminate].
  destruct (fromtimestamp tz (Programme.start_timestamp program)) as [local|];
    [|discriminate].
  destruct (strptime_dmY_HM _) as [line_dt|] eqn:Hp; [|discriminate].
  destruct (timestamp tz line_dt) as [line_time|] eqn:Hts; [|discriminate].
  exists time_str, after, local, line_dt, line_time.
  apply String.eqb_eq in Ht. apply Z.ltb_lt in H. auto 10.
Qed.

Lemma find_line_accepted (tz : TimeZone) (program : Programme.t)
      (epgLines : list string) (i : nat) :
  find_line tz program epgLines = Some i ->
  exists line, epgLines !! i = Some line /\ accepted tz program line.
Proof.
  unfold find_line. intros H.
  destruct (List.find _ (enumerate epgLines)) as [[j line]|] eqn:Hf;
    [|discriminate]. injection H as <-.
  apply find_enumerate in Hf as [Hl Hf]. apply andb_true_iff in Hf as [He Hm].
  exists line. split; [assumption | now apply line_matches_accepted].
Qed.

(** C1. With the clock after the epoch, the first search of the cursor
    treats a programme as a candidate exactly when its start date is
    today's, its stop time is present and now lies in [[start, stop]]; the
    programme it settles on is a candidate of the channel whose start is
    nearest to now; no candidate means no match; and the index it yields
    is that of a line whose title is the programme's and whose time, put
    on the programme's date, is less than 60 seconds from the stored
    start. *)
Theorem active_match_spec (tz : TimeZone) (programs : list Programme.t)
        (epgLines : list string) (now : Q) (current_date : string) :
  (0 < now)%Q ->
  (forall p, is_active now current_date p = true <-> on_air now current_date p) /\
  match current_program programs now current_date with
  | None =>
      (forall q, In q programs -> ~ on_air now current_date q) /\
      active_match tz programs epgLines now current_date = None
  | Some p =>
      In p programs /\ on_air now current_date p /\
      (forall q, In q programs -> on_air now current_date q ->
                 (time_diff now p <= time_diff now q)%Q) /\
      (forall i, active_match tz programs epgLines now current_date = Some i ->
                 exists line, epgLines !! i = Some line /\ accepted tz p line)
  end.
Proof.
  intros Hnow. split; [intros p; now apply is_active_on_air|].
  pose proof (current_program_found programs now current_date) as H.
  unfold active_match.
  destruct (current_program programs now current_date) as [p|].
  - destruct H as (Hin & Hact & Hmin). split; [assumption|].
    split; [now apply is_active_on_air|]. split.
    + intros q Hq Hqa. apply Hmin; [assumption | now apply is_active_on_air].
    + intros i. apply find_line_accepted.
  - split; [|reflexivity]. intros q Hq Hqa.
    apply (is_active_on_air now current_date q Hnow) in Hqa.
    rewrite (H q Hq) in Hqa. discriminate.
Qed.

Lemma active_match_spec_witness :
  (0 < half_past_eight)%Q /\
  current_program [news] half_past_eight "20240101" = Some news /\
  active_match UTC [news] news_lines half_past_eight "20240101" = Some 1%nat /\
  on_air half_past_eight "20240101" news /\
  exists line, news_lines !! 1%nat = Some line /\ accepted UTC news line.
Proof.
  assert (Hnow : (0 < half_past_eight)%Q) by reflexivity.
  assert (Hcur : current_program [news] half_past_eight "20240101" = Some news)
    by (vm_compute; reflexivity).
  assert (Hidx : active_match UTC [news] news_lines half_past_eight "20240101"
                 = Some 1%nat) by (vm_compute; reflexivity).
  pose proof (proj2 (active_match_spec UTC [news] news_lines half_past_eight
                       "20240101" Hnow)) as H.
  destruct H as (_ & Hair & _ & Hline).
  split; [exact Hnow|]. split; [exact Hcur|]. split; [exact Hidx|].
  split; [exact Hair|]. exact (Hline 1%nat Hidx).
Defined.

Example cursor_on_news :
  updateEPGAndPicon UTC {["Das Erste" := [news]]} (Screen.mk [] 0 [])
    (Some "Das Erste") half_past_eight "20240101"
  = Ok (Screen.mk news_lines 1 news_lines).
Proof. vm_compute. reflexivity. Qed.

(** ** The fallback *)

Lemma enumerate_from_app {A : Type} (l1 l2 : list A) :
  forall k, enumerate_from k (l1 ++ l2)
            = enumerate_from k l1 ++ enumerate_from (k + length l1) l2.
Proof.
  induction l1 as [|x l1 IH]; intros k; simpl.
  - now rewrite Nat.add_0_r.
  - rewrite IH. now replace (S k + length l1)%nat with (k + S (length l1))%nat by lia.
Qed.

Lemma last_valid_line_snoc (l : list string) (x : string) :
  last_valid_line (l ++ [x])
  = if is_entry x then Some (length l) else last_valid_line l.
Proof.
  unfold last_valid_line, enumerate. rewrite enumerate_from_app, rev_app_distr.
  simpl. now destruct (is_entry x).
Qed.

(** [last_valid_line] is the index of the last line that the searches do
    not pass over. *)
Lemma last_valid_line_spec (epgLines : list string) :
  match last_valid_line epgLines with
  | Some i =>
      exists line, epgLines !! i = Some line /\ is_entry line = true /\
        forall j line', (i < j)%nat -> epgLines !! j = Some line' ->
                        is_entry line' = false
  | None => forall line, In line epgLines -> is_entry line = false
  end.
Proof.
  induction epgLines as [|x l IH] using rev_ind; [intros line []|].
  rewrite last_valid_line_snoc. destruct (is_entry x) eqn:Hx.
  - exists x. split; [now rewrite list_lookup_middle|]. split; [assumption|].
    intros j line' Hj Hl. apply lookup_lt_Some in Hl.
    rewrite length_app in Hl. simpl in Hl. lia.
  - destruct (last_valid_line l) as [i|].
    + destruct IH as (line & Hl & He & Hlast). exists line.
      split; [now apply lookup_app_l_Some|]. split; [assumption|].
      intros j line' Hj Hl'. apply lookup_app_Some in Hl' as [Hl'|[Hge Hl']].
      * now apply (Hlast j).
      * apply list_lookup_singleton_Some in Hl' as [_ <-]. assumption.
    + intros line Hin. apply in_app_or in Hin as [Hin|[<-|[]]]; auto.
Qed.

(** C7, as the code has it. When the first search yields no line and no
    programme of the channel has a start date of today or later, the
    cursor goes to the last line that is neither a separator nor an
    informational line (and holds [" - "]), or stays at 0 when there is no
    such line; when programmes of today or later exist and the line of the
    earliest is not found, the cursor stays at 0. *)
Theorem fallback_last_valid_line (tz : TimeZone) (programs : list Programme.t)
        (epgLines : list string) (now : Q) (current_date : string) :
  active_match tz programs epgLines now current_date = None ->
  (future_programs programs current_date = [] ->
   current_index tz programs epgLines now current_date
   = default 0%nat (last_valid_line epgLines) /\
   match last_valid_line epgLines with
   | Some i =>
       exists line, epgLines !! i = Some line /\ is_entry line = true /\
         forall j line', (i < j)%nat -> epgLines !! j = Some line' ->
                         is_entry line' = false
   | None => forall line, In line epgLines -> is_entry line = false
   end) /\
  (future_programs programs current_date <> [] ->
   next_upcoming tz programs epgLines current_date = None ->
   current_index tz programs epgLines now current_date = 0%nat).
Proof.
  intros Hact. unfold current_index. rewrite Hact. split.
  - intros ->. split; [reflexivity | apply last_valid_line_spec].
  - intros Hne Hnext. rewrite Hnext.
    now destruct (future_programs programs current_date).
Qed.

Lemma fallback_last_valid_line_witness :
  active_match UTC [news] news_lines half_past_eight "20240102" = None /\
  future_programs [news] "20240102" = [] /\
  current_index UTC [news] news_lines half_past_eight "20240102"
  = default 0%nat (last_valid_line news_lines) /\
  last_valid_line news_lines = Some 1%nat.
Proof.
  assert (Hact : active_match UTC [news] news_lines half_past_eight "20240102"
                 = None) by (vm_compute; reflexivity).
  assert (Hfut : future_programs [news] "20240102" = []) by reflexivity.
  split; [exact Hact|]. split; [exact Hfut|]. split; [|reflexivity].
  exact (proj1 (proj1 (fallback_last_valid_line UTC [news] news_lines
                         half_past_eight "20240102" Hact) Hfut)).
Defined.

(** C7, as stated, fails: at 17:00 no programme of the channel is on
    air, the programme of 18:00 is the next one, the search for its line
    finds none because its title is cut at [" - "], and the cursor stays
    on the separator, line 0, while the last line that is neither a
    separator nor informational is line 1. *)
Lemma fallback_counterexample :
  getEPGFromData UTC {["Das Erste" := [dash]]} "Das Erste" = Ok dash_lines /\
  active_match UTC [dash] dash_lines five_o_clock "20240101" = None /\
  future_programs [dash] "20240101" = [dash] /\
  next_upcoming UTC [dash] dash_lines "20240101" = None /\
  last_valid_line dash_lines = Some 1%nat /\
  updateEPGAndPicon UTC {["Das Erste" := [dash]]} (Screen.mk [] 0 [])
    (Some "Das Erste") five_o_clock "20240101"
  = Ok (Screen.mk dash_lines 0 dash_lines).
Proof. repeat split; vm_compute; reflexivity. Qed.

(** ** Dates as text *)

Lemma digit_cases (n : Z) :
  0 <= n <= 9 -> exists k : nat, (k < 10)%nat /\ n = Z.of_nat k.
Proof. intros H. exists (Z.to_nat n). lia. Qed.

Lemma digit_val_char (n : Z) : 0 <= n <= 9 -> digit_val (digit_char n) = Some n.
Proof.
  intros H. apply digit_cases in H as (k & Hk & ->).
  do 10 (destruct k as [|k]; [reflexivity|]). lia.
Qed.

Lemma d2_digits (a b : Z) (r : string) :
  0 <= a <= 9 -> 0 <= b <= 9 ->
  d2 0 9 0 9 (String (digit_char a) (String (digit_char b) r)) = [(10 * a + b, r)].
Proof.
  intros Ha Hb. unfold d2. rewrite (digit_val_char a Ha), (digit_val_char b Hb).
  unfold between.
  replace (0 <=? a) with true by (symmetry; apply Z.leb_le; lia).
  replace (a <=? 9) with true by (symmetry; apply Z.leb_le; lia).
  replace (0 <=? b) with true by (symmetry; apply Z.leb_le; lia).
  replace (b <=? 9) with true by (symmetry; apply Z.leb_le; lia).
  reflexivity.
Qed.

Lemma pad4_app (y : Z) (r : string) :
  pad4 y +:+ r
  = String (digit_char (y / 1000)) (String (digit_char (y / 100 mod 10))
      (String (digit_char (y / 10 mod 10)) (String (digit_char (y mod 10)) r))).
Proof. reflexivity. Qed.

Lemma pad2_app (n : Z) (r : string) :
  pad2 n +:+ r = String (digit_char (n / 10)) (String (digit_char (n mod 10)) r).
Proof. reflexivity. Qed.

Lemma dir_Y_pad4 (y : Z) (r : string) :
  0 <= y <= 9999 -> dir_Y (pad4 y +:+ r) = [(y, r)].
Proof.
  intros Hy. rewrite pad4_app. unfold dir_Y. unfold seq at 1.
  rewrite d2_digits by (Z.div_mod_to_equations; lia).
  cbn [flat_map]. unfold seq at 1.
  rewrite d2_digits by (Z.div_mod_to_equations; lia).
  cbn [flat_map app]. unfold ret.
  apply (f_equal (fun v => [(v, r)])). Z.div_mod_to_equations. lia.
Qed.

Lemma dir_m_pad2 (m : Z) (r : string) :
  1 <= m <= 12 -> exists tl, dir_m (pad2 m +:+ r) = (m, r) :: tl.
Proof.
  intros H.
  assert (Hc : m = 1 \/ m = 2 \/ m = 3 \/ m = 4 \/ m = 5 \/ m = 6 \/ m = 7 \/
               m = 8 \/ m = 9 \/ m = 10 \/ m = 11 \/ m = 12) by lia.
  repeat (destruct Hc as [->|Hc]; [eexists; reflexivity|]).
  subst. eexists; reflexivity.
Qed.

Lemma dir_d_pad2 (d : Z) : 
  1 <= d <= 31 -> exists tl, dir_d (pad2 d) = (d, EmptyString) :: tl.
Proof.
  intros H.
  assert (Hc : exists n : nat, (n < 31)%nat /\ d = Z.of_nat n + 1)
    by (exists (Z.to_nat (d - 1)); lia).
  destruct Hc as (n & Hn & ->).
  do 31 (destruct n as [|n]; [eexists; reflexivity|]). lia.
Qed.

(** The date of a datetime, at midnight. *)
Definition date_of (t : datetime) : datetime :=
  mkDatetime (year t) (month t) (day t) 0 0 0.

Lemma valid_bounds (t : datetime) :
  valid t = true ->
  1 <= year t <= 9999 /\ 1 <= month t <= 12 /\ 1 <= day t <= 31.
Proof.
  unfold valid. rewrite !andb_true_iff, !Z.leb_le. intros H.
  assert (days_in_month (year t) (month t) <= 31).
  { unfold days_in_month.
    repeat match goal with |- context [if ?b then _ else _] => destruct b end; lia. }
  lia.
Qed.

Lemma valid_date_of (t : datetime) : valid t = true -> valid (date_of t) = true.
Proof.
  unfold valid, date_of. simpl. rewrite !andb_true_iff, !Z.leb_le. lia.
Qed.

(** From the year 1000 on the year is written with four digits. *)
Lemma decimal_pad4 (y : Z) : 1000 <= y -> decimal y = pad4 y.
Proof.
  intros H. unfold decimal.
  replace (y <? 10) with false by (symmetry; apply Z.ltb_ge; lia).
  replace (y <? 100) with false by (symmetry; apply Z.ltb_ge; lia).
  replace (y <? 1000) with false by (symmetry; apply Z.ltb_ge; lia).
  reflexivity.
Qed.

(** A start date of eight characters has a year of four digits. *)
Lemma strftime_Ymd_length (t : datetime) :
  String.length (strftime_Ymd t) = 8%nat -> 1000 <= year t.
Proof.
  unfold strftime_Ymd, decimal.
  destruct (year t <? 10); [discriminate|].
  destruct (year t <? 100); [discriminate|].
  destruct (year t <? 1000) eqn:H; [discriminate|].
  intros _. now apply Z.ltb_ge in H.
Qed.

(** [strptime] reads back the date that [strftime] wrote with a year of
    four digits. *)
Lemma strptime_strftime_Ymd (t : datetime) :
  valid t = true -> 1000 <= year t ->
  strptime_Ymd (strftime_Ymd t) = Some (date_of t).
Proof.
  intros Hv H1000. destruct (valid_bounds t Hv) as (Hy & Hm & Hd).
  unfold strptime_Ymd, strftime_Ymd. rewrite (decimal_pad4 _ H1000).
  unfold seq at 1. rewrite dir_Y_pad4 by lia. cbn [flat_map].
  rewrite app_nil_r. unfold seq at 1.
  destruct (dir_m_pad2 (month t) (pad2 (day t)) Hm) as (tl & ->).
  cbn [flat_map]. unfold seq at 1.
  destruct (dir_d_pad2 (day t) Hd) as (tl' & ->).
  cbn [flat_map app ret finish]. fold (date_of t).
  now rewrite (valid_date_of t Hv).
Qed.

Lemma finish_valid (ms : list (datetime * string)) (t : datetime) :
  finish ms = Some t -> valid t = true.
Proof.
  unfold finish. destruct ms as [|[dt r] ms]; [discriminate|].
  destruct r; [|discriminate]. destruct (valid dt) eqn:Hv; [|discriminate].
  now intros [= <-].
Qed.

Lemma strptime_YmdHMS_valid (s : string) (t : datetime) :
  strptime_YmdHMS s = Some t -> valid t = true.
Proof. apply finish_valid. Qed.

(** *** The order of date keys *)

Fixpoint digits_string (l : list Z) : string :=
  match l with
  | [] => EmptyString
  | d :: l' => String (digit_char d) (digits_string l')
  end.

Fixpoint digits_value (acc : Z) (l : list Z) : Z :=
  match l with
  | [] => acc
  | d :: l' => digits_value (10 * acc + d) l'
  end.

Definition is_digit (d : Z) : Prop := 0 <= d <= 9.

Lemma digit_char_compare (a b : Z) :
  is_digit a -> is_digit b ->
  Ascii.compare (digit_char a) (digit_char b) = Z.compare a b.
Proof.
  intros Ha Hb. apply digit_cases in Ha as (j & Hj & ->).
  apply digit_cases in Hb as (k & Hk & ->).
  do 10 (destruct j as [|j];
         [do 10 (destruct k as [|k]; [reflexivity|]); lia|]).
  lia.
Qed.

Lemma digits_value_lt (l1 : list Z) :
  forall l2 acc1 acc2,
    length l1 = length l2 -> Forall is_digit l1 -> Forall is_digit l2 ->
    acc1 < acc2 -> digits_value acc1 l1 < digits_value acc2 l2.
Proof.
  induction l1 as [|a l1 IH]; intros [|b l2] acc1 acc2 Hlen H1 H2 Hlt;
    simpl in *; try discriminate; [assumption|].
  inversion H1; inversion H2; subst. unfold is_digit in *.
  injection Hlen as Hlen. apply IH; auto; lia.
Qed.

Lemma digits_compare (l1 : list Z) :
  forall l2 acc,
    length l1 = length l2 -> Forall is_digit l1 -> Forall is_digit l2 ->
    String.compare (digits_string l1) (digits_string l2)
    = Z.compare (digits_value acc l1) (digits_value acc l2).
Proof.
  induction l1 as [|a l1 IH]; intros [|b l2] acc Hlen H1 H2;
    simpl in *; try discriminate.
  - now rewrite Z.compare_refl.
  - inversion H1 as [|? ? Ha H1']; inversion H2 as [|? ? Hb H2']; subst.
    injection Hlen as Hlen.
    rewrite (digit_char_compare a b Ha Hb).
    destruct (Z.compare_spec a b) as [->|Hlt|Hgt].
    + apply IH; auto.
    + symmetry. apply Z.compare_lt_iff.
      apply digits_value_lt; auto. lia.
    + symmetry. apply Z.compare_gt_iff.
      apply digits_value_lt; auto. lia.
Qed.

(** The date as a number, YYYYMMDD. *)
Definition ordinal (t : datetime) : Z := year t * 10000 + month t * 100 + day t.

Definition date_digits (t : datetime) : list Z :=
  [year t / 1000; year t / 100 mod 10; year t / 10 mod 10; year t mod 10;
   month t / 10; month t mod 10; day t / 10; day t mod 10].

Lemma strftime_Ymd_digits (t : datetime) :
  1000 <= year t -> strftime_Ymd t = digits_string (date_digits t).
Proof. intros H. unfold strftime_Ymd. now rewrite (decimal_pad4 _ H). Qed.

Lemma date_digits_value (t : datetime) :
  valid t = true ->
  Forall is_digit (date_digits t) /\ digits_value 0 (date_digits t) = ordinal t.
Proof.
  intros Hv. destruct (valid_bounds t Hv) as (Hy & Hm & Hd).
  unfold date_digits, ordinal, is_digit. simpl. split.
  - repeat constructor; Z.div_mod_to_equations; lia.
  - Z.div_mod_to_equations. lia.
Qed.

Lemma strftime_Ymd_compare (t1 t2 : datetime) :
  valid t1 = true -> valid t2 = true -> 1000 <= year t1 -> 1000 <= year t2 ->
  String.compare (strftime_Ymd t1) (strftime_Ymd t2)
  = Z.compare (ordinal t1) (ordinal t2).
Proof.
  intros H1 H2 Hy1 Hy2.
  destruct (date_digits_value t1 H1) as [Hd1 <-].
  destruct (date_digits_value t2 H2) as [Hd2 <-].
  rewrite !strftime_Ymd_digits by assumption. now apply digits_compare.
Qed.

Lemma string_leb_trans (a : string) :
  forall b c, String.leb a b = true -> String.leb b c = true -> String.leb a c = true.
Proof.
  unfold String.leb.
  induction a as [|x a IH]; intros [|y b] [|z c]; simpl; try congruence.
  unfold Ascii.compare.
  destruct (N.compare_spec (N_of_ascii x) (N_of_ascii y)),
    (N.compare_spec (N_of_ascii y) (N_of_ascii z)),
    (N.compare_spec (N_of_ascii x) (N_of_ascii z));
    try congruence; try lia; apply IH.
Qed.

(** ** [sorted] sorts *)

Section SortedOrder.
Context {A : Type} (leb : A -> A -> bool).
Hypothesis leb_total : forall x y, leb x y = true \/ leb y x = true.
Hypothesis leb_trans :
  forall x y z, leb x y = true -> leb y z = true -> leb x z = true.

Lemma insert_sorted_sorted (x : A) (l : list A) :
  StronglySorted (fun a b => leb a b = true) l ->
  StronglySorted (fun a b => leb a b = true) (insert_sorted leb x l).
Proof.
  induction 1 as [|y l Hl IH Hy]; simpl; [repeat constructor|].
  destruct (leb x y) eqn:Hxy.
  - constructor; [now constructor|]. constructor; [assumption|].
    eapply Forall_impl; [exact Hy|]. intros z Hz. now apply leb_trans with y.
  - constructor; [assumption|].
    assert (Hyx : leb y x = true) by (destruct (leb_total x y); congruence).
    rewrite (insert_sorted_perm leb x l). now constructor.
Qed.

Lemma py_sorted_sorted (l : list A) :
  StronglySorted (fun a b => leb a b = true) (py_sorted leb l).
Proof.
  induction l as [|x l IH]; [constructor|].
  unfold py_sorted in *. simpl. now apply insert_sorted_sorted.
Qed.
End SortedOrder.

Lemma StronglySorted_mono {A : Type} (R R' : A -> A -> Prop) (l : list A) :
  (forall x y, R x y -> R' x y) -> StronglySorted R l -> StronglySorted R' l.
Proof.
  intros HR. induction 1 as [|x l Hl IH Hx]; constructor; [assumption|].
  eapply Forall_impl; [exact Hx|]. intros y. apply HR.
Qed.

Lemma by_start_timestamp_sorted (l : list Programme.t) :
  StronglySorted (fun p q => Programme.start_timestamp p <= Programme.start_timestamp q)
                 (py_sorted by_start_timestamp l).
Proof.
  eapply StronglySorted_mono;
    [|apply (py_sorted_sorted by_start_timestamp)].
  - intros p q H. now apply Z.leb_le in H.
  - intros x y. unfold by_start_timestamp. rewrite !Z.leb_le. lia.
  - intros x y z. unfold by_start_timestamp. rewrite !Z.leb_le. lia.
Qed.

Lemma StronglySorted_filter {A : Type} (R : A -> A -> Prop) (f : A -> bool)
      (l : list A) :
  StronglySorted R l -> StronglySorted R (List.filter f l).
Proof.
  induction 1 as [|x l Hl IH Hx]; simpl; [constructor|].
  destruct (f x); [|assumption]. constructor; [assumption|].
  rewrite Forall_forall in Hx |- *. intros y Hy. apply Hx.
  apply list_elem_of_In in Hy. apply filter_In in Hy as [Hy _].
  now apply list_elem_of_In.
Qed.

(** ** The buckets of [getEPGFromData] *)

Section Buckets.
Context {E : Type}.
Implicit Types (d : list (string * list E)) (k : string) (e : E).

Lemma bucket_add_keys d k e (k' : string) :
  In k' (List.map fst (bucket_add d k e)) <-> k' = k \/ In k' (List.map fst d).
Proof.
  induction d as [|[k0 es] d IH]; simpl; [intuition|].
  destruct (String.eqb k0 k) eqn:Hk; simpl.
  - apply String.eqb_eq in Hk. subst. intuition.
  - rewrite IH. intuition.
Qed.

Lemma bucket_add_NoDup d k e :
  NoDup (List.map fst d) -> NoDup (List.map fst (bucket_add d k e)).
Proof.
  induction d as [|[k0 es] d IH]; simpl; intros H.
  - constructor; [intros Hin; inversion Hin | constructor].
  - inversion H as [|? ? Hnot Hd]; subst.
    destruct (String.eqb k0 k) eqn:Hk; simpl; [now constructor|].
    constructor; [|now apply IH].
    rewrite list_elem_of_In, bucket_add_keys. intros [->|Hin].
    + rewrite String.eqb_refl in Hk. discriminate.
    + apply Hnot. now apply list_elem_of_In.
Qed.

Lemma bucket_add_concat d k e :
  Permutation (List.concat (List.map snd (bucket_add d k e)))
              (List.concat (List.map snd d) ++ [e]).
Proof.
  induction d as [|[k0 es] d IH]; simpl; [reflexivity|].
  destruct (String.eqb k0 k); simpl.
  - rewrite <- !app_assoc. apply Permutation_app_head, Permutation_app_comm.
  - rewrite IH. now rewrite app_assoc.
Qed.

Lemma bucket_add_lookup d k e (k' : string) :
  bucket (bucket_add d k e) k'
  = if String.eqb k k' then Some (default [] (bucket d k) ++ [e]) else bucket d k'.
Proof.
  induction d as [|[k0 es] d IH]; simpl.
  - rewrite String.eqb_sym. now destruct (String.eqb k' k).
  - destruct (String.eqb k0 k) eqn:Hk; simpl.
    + apply String.eqb_eq in Hk. subst. now destruct (String.eqb k k').
    + rewrite IH. destruct (String.eqb k k') eqn:Hkk'; [|reflexivity].
      apply String.eqb_eq in Hkk'. subst. now rewrite Hk.
Qed.

Lemma bucket_of_key d k : In k (List.map fst d) -> is_Some (bucket d k).
Proof.
  induction d as [|[k0 es] d IH]; simpl; [intros []|].
  destruct (String.eqb k0 k) eqn:Hk; [now eexists|].
  intros [->|Hin]; [|now apply IH]. rewrite String.eqb_refl in Hk. discriminate.
Qed.

Lemma buckets_of_keys d :
  NoDup (List.map fst d) ->
  List.map (fun k => (k, default [] (bucket d k))) (List.map fst d) = d.
Proof.
  induction d as [|[k0 es] d IH]; simpl; intros H; [reflexivity|].
  inversion H as [|? ? Hnot Hd]; subst. rewrite String.eqb_refl. simpl. f_equal.
  rewrite <- (IH Hd) at 2. apply map_ext_in. intros k Hin.
  destruct (String.eqb k0 k) eqn:Hk; [|reflexivity].
  apply String.eqb_eq in Hk. subst. exfalso. apply Hnot. now apply list_elem_of_In.
Qed.
End Buckets.

Section Grouping.
Context {E : Type} (render : Programme.t -> option E).

Definition group_step (d : list (string * list E)) (program : Programme.t) :=
  match render program with
  | Some entry => bucket_add d (Programme.start_date program) entry
  | None => d
  end.

Lemma group_by_date_fold (programs : list Programme.t) :
  group_by_date render programs = List.fold_left group_step programs [].
Proof. reflexivity. Qed.

Lemma group_fold_keys (programs : list Programme.t) :
  forall d k,
    In k (List.map fst (List.fold_left group_step programs d)) ->
    In k (List.map fst d) \/
    exists p, In p programs /\ Programme.start_date p = k.
Proof.
  induction programs as [|x l IH]; intros d k H; simpl in *; [now left|].
  apply IH in H as [H|(p & Hp & Hk)]; [|right; eauto].
  unfold group_step in H. destruct (render x); [|now left].
  apply bucket_add_keys in H as [->|H]; [right; eauto | now left].
Qed.

Lemma group_fold_NoDup (programs : list Programme.t) :
  forall d, NoDup (List.map fst d) ->
            NoDup (List.map fst (List.fold_left group_step programs d)).
Proof.
  induction programs as [|x l IH]; intros d H; simpl; [assumption|].
  apply IH. unfold group_step. destruct (render x); [|assumption].
  now apply bucket_add_NoDup.
Qed.

(** The keys of the buckets are start dates of programmes. *)
Lemma group_by_date_keys (programs : list Programme.t) (k : string) :
  In k (List.map fst (group_by_date render programs)) ->
  exists p, In p programs /\ Programme.start_date p = k.
Proof.
  rewrite group_by_date_fold. intros H.
  apply group_fold_keys in H as [[]|H]. exact H.
Qed.

Lemma group_by_date_NoDup (programs : list Programme.t) :
  NoDup (List.map fst (group_by_date render programs)).
Proof. rewrite group_by_date_fold. apply group_fold_NoDup. constructor. Qed.
End Grouping.

(** ** What the parser stores *)

(** The start date and the start timestamp of a stored programme come
    from one datetime that the constructor accepts. *)
Definition programme_wf (tz : TimeZone) (p : Programme.t) : Prop :=
  exists t, valid t = true /\ Programme.start_date p = strftime_Ymd t /\
            timestamp tz t = Some (Programme.start_timestamp p).

(** The start date has the eight characters of a year of four digits, a
    month and a day. *)
Definition four_digit_year (p : Programme.t) : Prop :=
  String.length (Programme.start_date p) = 8%nat.

Definition index_wf (tz : TimeZone) (data : gmap string (list Programme.t)) : Prop :=
  forall name ps, data !! name = Some ps -> Forall (programme_wf tz) ps.

Lemma parse_index_wf (lxml : bool) (tz : TimeZone) (tree : node) :
  index_wf tz (epgData (fst (parseXMLData lxml tz tree))).
Proof.
  apply (parse_elements_invariant lxml tz (fun st => index_wf tz (epgData st))).
  - intros name ps H. simpl in H. rewrite lookup_empty in H. discriminate.
  - intros x st st' Hst Hb.
    apply channel_body_inv in Hb as [->|(cid & n & _ & _ & ->)]; [assumption|].
    intros name ps. simpl. rewrite lookup_insert.
    destruct (decide (n = name)); [intros [= <-]; constructor | apply Hst].
  - intros x st st' Hst Hb.
    apply program_body_inv in Hb
      as [->|(cid & start & ch & title & desc & cat & ts & stop & date & l & _ & _
              & _ & _ & _ & _ & _ & Hpt & Hl & ->)]; [assumption|].
    intros name ps. simpl. rewrite lookup_insert.
    destruct (decide (Channel.title ch = name)); [|apply Hst].
    intros [= <-]. apply Forall_app. split; [now apply (Hst _ _ Hl)|].
    constructor; [|constructor].
    apply parse_times_inv in Hpt as (t & Ht & Hts & -> & _).
    exists t. split; [now apply strptime_YmdHMS_valid in Ht | auto].
Qed.

Lemma programme_wf_date (tz : TimeZone) (p : Programme.t) :
  programme_wf tz p -> four_digit_year p ->
  exists t, valid t = true /\ 1000 <= year t /\
            Programme.start_date p = strftime_Ymd t /\
            strptime_Ymd (Programme.start_date p) = Some (date_of t).
Proof.
  intros (t & Hv & Hd & _) H8. unfold four_digit_year in H8. rewrite Hd in H8.
  apply strftime_Ymd_length in H8.
  exists t. split; [assumption|]. split; [assumption|]. split; [assumption|].
  rewrite Hd. now apply strptime_strftime_Ymd.
Qed.

(** ** The builder returns lines *)

Lemma emit_blocks_ok (d : list (string * list string)) (dates : list string) :
  (forall k, In k dates -> is_Some (strptime_Ymd k) /\ is_Some (bucket d k)) ->
  exists lines, emit_blocks d dates = Ok lines.
Proof.
  induction dates as [|k dates IH]; intros H; simpl; [now eexists|].
  destruct (H k (or_introl eq_refl)) as [[date ->] [es ->]]. simpl.
  destruct IH as [more ->]; [intros k' Hk'; apply H; now right|].
  simpl. now eexists.
Qed.

Lemma getEPGFromData_ok (tz : TimeZone) (data : gmap string (list Programme.t))
      (channel_name : string) :
  index_wf tz data ->
  Forall four_digit_year (default [] (data !! channel_name)) ->
  exists lines, getEPGFromData tz data channel_name = Ok lines /\ lines <> [].
Proof.
  intros Hwf H8. unfold getEPGFromData. revert H8.
  destruct (data !! channel_name) as [[|p l]|] eqn:Hl; cbn [default from_option id];
    intros H8; try (eexists; split; [reflexivity | discriminate]).
  cbv beta iota zeta.
  set (d := group_by_date (entry_line tz) (py_sorted by_start_timestamp (p :: l))).
  destruct (emit_blocks_ok d (py_sorted String.leb (List.map fst d)))
    as [lines ->].
  - intros k Hk. apply py_sorted_In in Hk. split; [|now apply bucket_of_key].
    apply group_by_date_keys in Hk as (q & Hq & <-).
    apply py_sorted_In in Hq.
    assert (Hq' : programme_wf tz q).
    { specialize (Hwf _ _ Hl). rewrite Forall_forall in Hwf. apply Hwf.
      now apply list_elem_of_In. }
    apply programme_wf_date in Hq' as (t & _ & _ & _ & ->); [now eexists|].
    rewrite Forall_forall in H8. apply H8. now apply list_elem_of_In.
  - simpl. destruct lines; eexists; (split; [reflexivity | discriminate]).
Qed.

(** ** The cursor stays inside the lines *)

Lemma find_line_entry (tz : TimeZone) (program : Programme.t)
      (epgLines : list string) (i : nat) :
  find_line tz program epgLines = Some i ->
  exists line, epgLines !! i = Some line /\ is_entry line = true.
Proof.
  intros H. apply find_line_accepted in H as (line & Hl & He & _). eauto.
Qed.

Lemma default_find_line_entry (tz : TimeZone) (program : Programme.t)
      (epgLines : list string) :
  default 0%nat (find_line tz program epgLines) = 0%nat \/
  exists line,
    epgLines !! default 0%nat (find_line tz program epgLines) = Some line /\
    is_entry line = true.
Proof.
  destruct (find_line tz program epgLines) as [i|] eqn:H; simpl; [|now left].
  right. exact (find_line_entry tz program epgLines i H).
Qed.

Lemma default_last_valid_line_entry (epgLines : list string) :
  default 0%nat (last_valid_line epgLines) = 0%nat \/
  exists line,
    epgLines !! default 0%nat (last_valid_line epgLines) = Some line /\
    is_entry line = true.
Proof.
  pose proof (last_valid_line_spec epgLines) as Hs.
  destruct (last_valid_line epgLines) as [i|]; simpl; [|now left].
  destruct Hs as (line & Hl & He & _). right. eauto.
Qed.

Lemma current_index_entry (tz : TimeZone) (programs : list Programme.t)
      (epgLines : list string) (now : Q) (current_date : string) :
  current_index tz programs epgLines now current_date = 0%nat \/
  exists line,
    epgLines !! current_index tz programs epgLines now current_date = Some line /\
    is_entry line = true.
Proof.
  unfold current_index, active_match, next_upcoming.
  destruct (current_program programs now current_date) as [p|].
  - destruct (find_line tz p epgLines) as [i|] eqn:Hf.
    + right. exact (find_line_entry tz p epgLines i Hf).
    + destruct (future_programs programs current_date) as [|q qs].
      * apply default_last_valid_line_entry.
      * apply default_find_line_entry.
  - destruct (future_programs programs current_date) as [|q qs].
    + apply default_last_valid_line_entry.
    + apply default_find_line_entry.
Qed.

(** X1. For the index that [parseXMLData] leaves, for a channel name
    that is not empty and whose programmes all have a start date of eight
    characters (a year of four digits), and for every clock, the builder
    returns a list of lines that is not empty, [updateEPGAndPicon] shows
    that list, and the cursor it computes is an index into the list: it
    is 0, or the index of a line of the list that the searches took. *)
Theorem cursor_in_range (lxml : bool) (tz : TimeZone) (tree : node)
        (screen : Screen.t) (channel_name : string) (now : Q)
        (current_date : string) :
  PyStr.truthy channel_name = true ->
  Forall four_digit_year
         (default [] (epgData (fst (parseXMLData lxml tz tree)) !! channel_name)) ->
  exists (epgLines : list string) (i : nat),
    getEPGFromData tz (epgData (fst (parseXMLData lxml tz tree))) channel_name
    = Ok epgLines /\
    epgLines <> [] /\
    updateEPGAndPicon tz (epgData (fst (parseXMLData lxml tz tree))) screen
      (Some channel_name) now current_date
    = Ok (Screen.mk epgLines i epgLines) /\
    (i < length epgLines)%nat /\
    (i = 0%nat \/ exists line, epgLines !! i = Some line /\ is_entry line = true).
Proof.
  intros Hname H8.
  destruct (getEPGFromData_ok tz _ channel_name (parse_index_wf lxml tz tree) H8)
    as (lines & Hg & Hne).
  set (data := epgData (fst (parseXMLData lxml tz tree))) in *.
  exists lines, (current_index tz (default [] (data !! channel_name)) lines now
                   current_date).
  split; [assumption|]. split; [assumption|].
  split; [unfold updateEPGAndPicon; rewrite Hname, Hg; simpl; now destruct lines|].
  pose proof (current_index_entry tz (default [] (data !! channel_name)) lines
                now current_date) as H.
  split; [|exact H]. destruct H as [->|(line & Hl & _)].
  - destruct lines; [congruence | simpl; lia].
  - now apply lookup_lt_Some in Hl.
Qed.

Lemma cursor_in_range_witness :
  PyStr.truthy "Das Erste" = true /\
  Forall four_digit_year
         (default [] (epgData (fst (parseXMLData true UTC feed)) !! "Das Erste")) /\
  exists (epgLines : list string) (i : nat),
    updateEPGAndPicon UTC (epgData (fst (parseXMLData true UTC feed)))
      (Screen.mk [] 0 []) (Some "Das Erste") half_past_eight "20240101"
    = Ok (Screen.mk epgLines i epgLines) /\
    (i < length epgLines)%nat.
Proof.
  assert (H1 : PyStr.truthy "Das Erste" = true) by reflexivity.
  assert (H2 : Forall four_digit_year
                 (default [] (epgData (fst (parseXMLData true UTC feed))
                              !! "Das Erste"))).
  { vm_compute. repeat constructor. }
  split; [exact H1|]. split; [exact H2|].
  destruct (cursor_in_range true UTC feed (Screen.mk [] 0 []) "Das Erste"
              half_past_eight "20240101" H1 H2)
    as (epgLines & i & _ & _ & Hu & Hi & _).
  exists epgLines, i. split; [exact Hu | exact Hi].
Defined.

(** ** More on the loops of [parseXMLData] *)

Lemma for_each_app {A S : Type} (body : A -> S -> result S) (l1 l2 : list A) :
  forall st,
    for_each body (l1 ++ l2) st
    = match for_each body l1 st with
      | (st1, None) => for_each body l2 st1
      | r => r
      end.
Proof.
  induction l1 as [|x l1 IH]; intros st; simpl; [reflexivity|].
  destruct (body x st); [apply IH | reflexivity].
Qed.

(** X2. When [parseXMLData] is over, the keys of the programme index are
    the titles of the channels of the channel list, no more and no less:
    every channel of the list has its (possibly empty) list of programmes,
    and no list is stored under another name. *)
Theorem index_keys_are_titles (lxml : bool) (tz : TimeZone) (tree : node)
        (name : string) :
  is_Some (epgData (fst (parseXMLData lxml tz tree)) !! name) <->
  exists c, In c (channelData (fst (parseXMLData lxml tz tree))) /\
            Channel.title c = name.
Proof.
  revert name.
  apply (parse_elements_invariant lxml tz
           (fun st => forall name,
                is_Some (epgData st !! name) <->
                exists c, In c (channelData st) /\ Channel.title c = name)).
  - intros name. simpl. rewrite lookup_empty. split.
    + intros [x Hx]. discriminate.
    + intros (c & [] & _).
  - intros x st st' Hst Hb name.
    apply channel_body_inv in Hb as [->|(cid & n & _ & _ & ->)]; [apply Hst|].
    simpl. rewrite lookup_insert. destruct (decide (n = name)) as [->|Hne].
    + split; [|now eexists]. intros _. eexists.
      split; [apply in_or_app; right; left; reflexivity | reflexivity].
    + rewrite Hst. split.
      * intros (c & Hc & Ht). exists c. split; [apply in_or_app; now left | exact Ht].
      * intros (c & Hc & Ht). apply in_app_or in Hc as [Hc|[<-|[]]]; [eauto|].
        simpl in Ht. congruence.
  - intros x st st' Hst Hb name.
    apply program_body_inv in Hb
      as [->|(cid & start & ch & title & desc & cat & ts & stop & date & l & _ & _
              & _ & _ & _ & _ & _ & _ & Hl & ->)]; [apply Hst|].
    simpl. rewrite lookup_insert. destruct (decide (Channel.title ch = name)) as [<-|];
      [|apply Hst].
    rewrite <- Hst, Hl. split; intros _; now eexists.
Qed.

(** X3. A round of the programme loop stores nothing and changes nothing
    when the element has no channel reference or an empty one, an empty
    start, or a channel reference that is the id of no parsed channel. *)
Theorem unresolved_programme_dropped (lxml : bool) (tz : TimeZone) (e : node)
        (st : ParseState) :
  PyStr.truthy_opt (get e "channel") = false \/
  PyStr.truthy_opt (get e "start") = false \/
  (exists cid, get e "channel" = Some cid /\
               next_channel (channelData st) cid = None) ->
  program_body lxml tz e st = Ok st.
Proof.
  unfold program_body. intros [H|[H|(cid & Hc & Hn)]].
  - destruct (get e "channel") as [cid|]; [|reflexivity]. simpl in H. rewrite H.
    now destruct (get e "start").
  - destruct (get e "channel") as [cid|]; [|reflexivity].
    destruct (get e "start") as [start|]; [|reflexivity]. simpl in H. rewrite H.
    now rewrite andb_false_r.
  - rewrite Hc, Hn. destruct (get e "start"); [|reflexivity].
    now destruct (negb _).
Qed.

Lemma unresolved_programme_dropped_witness :
  let st := mkParseState [das_erste] {["Das Erste" := []]} in
  (PyStr.truthy_opt (get orphan_el "channel") = false \/
   PyStr.truthy_opt (get orphan_el "start") = false \/
   (exists cid, get orphan_el "channel" = Some cid /\
                next_channel (channelData st) cid = None)) /\
  program_body true UTC orphan_el st = Ok st.
Proof.
  intros st.
  assert (H : PyStr.truthy_opt (get orphan_el "channel") = false \/
              PyStr.truthy_opt (get orphan_el "start") = false \/
              (exists cid, get orphan_el "channel" = Some cid /\
                           next_channel (channelData st) cid = None)).
  { right. right. exists "zdf". split; reflexivity. }
  split; [exact H | exact (unresolved_programme_dropped true UTC orphan_el st H)].
Defined.

(** X4. A programme element whose start attribute does not parse is not
    stored: the round leaves the state as it is (unless a child without
    text raised [AttributeError] before the times were looked at). *)
Theorem start_parse_failure_drops (lxml : bool) (tz : TimeZone) (e : node)
        (start : string) (st : ParseState) :
  get e "start" = Some start ->
  strptime_YmdHMS (List.hd EmptyString (PyStr.split " " start)) = None ->
  program_body lxml tz e st = Ok st \/
  program_body lxml tz e st = Raise AttributeError.
Proof.
  intros Hstart Hfail.
  assert (Hpt : parse_times tz start (get e "stop") = Raise ValueError).
  { unfold parse_times. now rewrite Hfail. }
  unfold program_body. rewrite Hstart, Hpt.
  destruct (get e "channel") as [cid|]; [|now left].
  match goal with
  | |- context [if negb ?b then _ else _] => destruct b; simpl; [|now left]
  end.
  destruct (next_channel (channelData st) cid); [|now left].
  unfold child_text, text_strip.
  repeat match goal with
         | |- context [if lxml then _ else _] => destruct lxml
         | |- context [match ?x with _ => _ end] =>
             match x with
             | xpath_text _ _ => destruct x
             | find _ _ => destruct x
             | text _ => destruct x
             end
         end; simpl; auto.
Qed.

Lemma start_parse_failure_drops_witness :
  let st := mkParseState [das_erste] {["Das Erste" := []]} in
  get bad_start_el "start" = Some "tonight" /\
  strptime_YmdHMS (List.hd EmptyString (PyStr.split " " "tonight")) = None /\
  (program_body true UTC bad_start_el st = Ok st \/
   program_body true UTC bad_start_el st = Raise AttributeError).
Proof.
  intros st.
  assert (H1 : get bad_start_el "start" = Some "tonight") by reflexivity.
  assert (H2 : strptime_YmdHMS (List.hd EmptyString (PyStr.split " " "tonight"))
               = None) by reflexivity.
  split; [exact H1|]. split; [exact H2|].
  exact (start_parse_failure_drops true UTC bad_start_el "tonight" st H1 H2).
Defined.

(** ** Channel elements that are skipped, and those that end the parse *)

Lemma channel_body_skipped (lxml : bool) (channel : node) :
  PyStr.truthy_opt (get channel "id") = false \/
  (lxml = false /\ find channel "display-name" = None) ->
  forall st, channel_body lxml channel st = Ok st.
Proof.
  intros [H|[-> H]] st; unfold channel_body.
  - now rewrite H.
  - rewrite H. now rewrite orb_true_r.
Qed.

(** X5. A channel element without an id (or with an empty one), and, when
    the document was read with ElementTree, a channel element without a
    display-name child, is passed over: [parseXMLData] ends as on the feed
    without that element. *)
Theorem skipped_channel_leaves_no_trace (lxml : bool) (tz : TimeZone)
        (tree : node) (l1 l2 : list node) (channel : node) :
  channel_iter lxml tree = l1 ++ channel :: l2 ->
  PyStr.truthy_opt (get channel "id") = false \/
  (lxml = false /\ find channel "display-name" = None) ->
  parseXMLData lxml tz tree
  = parse_elements lxml tz (l1 ++ l2) (program_iter lxml tree).
Proof.
  intros Hiter Hskip. unfold parseXMLData, parse_elements. rewrite Hiter.
  now rewrite (for_each_skip (channel_body lxml) l1 l2 channel
                 (channel_body_skipped lxml channel Hskip)).
Qed.

Lemma skipped_channel_leaves_no_trace_witness :
  let tree := Element "tv" [] None
                [anonymous_channel_el; channel_el "de1" "Das Erste"; news_el] None in
  channel_iter true tree = [] ++ anonymous_channel_el :: [channel_el "de1" "Das Erste"] /\
  parseXMLData true UTC tree
  = parse_elements true UTC ([] ++ [channel_el "de1" "Das Erste"])
      (program_iter true tree).
Proof.
  intros tree.
  assert (H : channel_iter true tree
              = [] ++ anonymous_channel_el :: [channel_el "de1" "Das Erste"])
    by reflexivity.
  split; [exact H|].
  apply (skipped_channel_leaves_no_trace true UTC tree [] _ anonymous_channel_el H).
  left. reflexivity.
Defined.

(** The channel loop stores empty lists only. *)
Lemma channel_loop_empty_lists (lxml : bool) (channels : list node) :
  forall name ps,
    epgData (fst (for_each (channel_body lxml) channels (mkParseState [] ∅)))
    !! name = Some ps -> ps = [].
Proof.
  apply (for_each_invariant (channel_body lxml)
           (fun st => forall name ps, epgData st !! name = Some ps -> ps = [])).
  - intros x st st' Hst Hb name ps.
    apply channel_body_inv in Hb as [->|(cid & n & _ & _ & ->)]; [apply Hst|].
    simpl. rewrite lookup_insert. destruct (decide (n = name)); [|apply Hst].
    now intros [= <-].
  - intros name ps. simpl. rewrite lookup_empty. discriminate.
Qed.

(** The exception a channel element raises when it has an id and its
    display name has no text. *)
Definition channel_raises (lxml : bool) (channel : node) : option exn :=
  if PyStr.truthy_opt (get channel "id") then
    if lxml
    then match xpath_text channel "display-name" with
         | [] => Some IndexError
         | _ => None
         end
    else match find channel "display-name" with
         | Some el => match text el with None => Some AttributeError | Some _ => None end
         | None => None
         end
  else None.

Lemma channel_body_raises (lxml : bool) (channel : node) (e : exn) :
  channel_raises lxml channel = Some e ->
  forall st, channel_body lxml channel st = Raise e.
Proof.
  unfold channel_raises, channel_body, text_strip. intros H st.
  destruct (PyStr.truthy_opt (get channel "id")); [|discriminate]. simpl.
  destruct lxml.
  - destruct (xpath_text channel "display-name"); [|discriminate].
    now injection H as <-.
  - destruct (find channel "display-name") as [el|]; [|discriminate].
    destruct (text el); [discriminate|]. now injection H as <-.
Qed.

(** X6. A channel element that has an id and whose display name has no
    text (with lxml: no text node under the first display-name, or no
    display-name at all; with ElementTree: a display-name child without
    text) ends [parseXMLData] with the exception caught by its outer
    handler: the channels read before it stay in the channel list, the
    channels after it are not read, and no programme is stored. *)
Theorem nameless_channel_aborts (lxml : bool) (tz : TimeZone) (tree : node)
        (l1 l2 : list node) (channel : node) (e : exn) (st1 : ParseState) :
  channel_iter lxml tree = l1 ++ channel :: l2 ->
  channel_raises lxml channel = Some e ->
  for_each (channel_body lxml) l1 (mkParseState [] ∅) = (st1, None) ->
  parseXMLData lxml tz tree = (st1, ParseError e) /\
  forall name ps, epgData st1 !! name = Some ps -> ps = [].
Proof.
  intros Hiter Hraise Hl1. split.
  - unfold parseXMLData, parse_elements.
    rewrite Hiter, for_each_app, Hl1. simpl.
    now rewrite (channel_body_raises lxml channel e Hraise).
  - pose proof (channel_loop_empty_lists lxml l1) as H. now rewrite Hl1 in H.
Qed.

Lemma nameless_channel_aborts_witness :
  channel_iter true feed_nameless
  = [channel_el "de1" "Das Erste"] ++ nameless_channel_el :: [] /\
  channel_raises true nameless_channel_el = Some IndexError /\
  parseXMLData true UTC feed_nameless
  = (mkParseState [das_erste] {["Das Erste" := []]}, ParseError IndexError).
Proof.
  assert (H1 : channel_iter true feed_nameless
               = [channel_el "de1" "Das Erste"] ++ nameless_channel_el :: [])
    by reflexivity.
  assert (H2 : channel_raises true nameless_channel_el = Some IndexError)
    by reflexivity.
  split; [exact H1|]. split; [exact H2|].
  apply (nameless_channel_aborts true UTC feed_nameless _ _ _ _ _ H1 H2).
  vm_compute. reflexivity.
Defined.

(** X7. When no channel element of the feed has an id, [parseXMLData]
    takes its "No channels found" return: the channel list and the index
    are empty and the programme elements are not looked at. *)
Theorem no_channels_no_index (lxml : bool) (tz : TimeZone) (tree : node) :
  Forall (fun ch => PyStr.truthy_opt (get ch "id") = false) (channel_iter lxml tree) ->
  parseXMLData lxml tz tree = (mkParseState [] ∅, NoChannels).
Proof.
  intros H. unfold parseXMLData, parse_elements.
  assert (Hloop : for_each (channel_body lxml) (channel_iter lxml tree)
                    (mkParseState [] ∅) = (mkParseState [] ∅, None)).
  { induction H as [|ch l Hch Hl IH]; simpl; [reflexivity|].
    now rewrite (channel_body_skipped lxml ch (or_introl Hch)). }
  now rewrite Hloop.
Qed.

Lemma no_channels_no_index_witness :
  let tree := Element "tv" [] None [anonymous_channel_el; news_el] None in
  Forall (fun ch => PyStr.truthy_opt (get ch "id") = false) (channel_iter true tree) /\
  parseXMLData true UTC tree = (mkParseState [] ∅, NoChannels).
Proof.
  intros tree.
  assert (H : Forall (fun ch => PyStr.truthy_opt (get ch "id") = false)
                     (channel_iter true tree)).
  { vm_compute. repeat constructor. }
  split; [exact H | exact (no_channels_no_index true UTC tree H)].
Defined.

(** ** The time zone token of the feed's times *)

Lemma append_cons (c : ascii) (s t : string) :
  String c s +:+ t = String c (s +:+ t).
Proof. reflexivity. Qed.

Lemma append_empty_l (s : string) : EmptyString +:+ s = s.
Proof. reflexivity. Qed.

Lemma append_empty_r (s : string) : s +:+ EmptyString = s.
Proof.
  induction s as [|c s IH]; [reflexivity | now rewrite append_cons, IH].
Qed.

Lemma string_append_assoc (a b c : string) : (a +:+ b) +:+ c = a +:+ (b +:+ c).
Proof.
  induction a as [|x a IH]; [reflexivity | now rewrite !append_cons, IH].
Qed.

Lemma rev_acc_append (acc : string) :
  forall s, PyStr.rev_acc acc s = PyStr.rev_acc acc EmptyString +:+ s.
Proof.
  induction acc as [|c acc IH]; intros s; cbn [PyStr.rev_acc]; [reflexivity|].
  rewrite (IH (String c s)), (IH (String c EmptyString)).
  now rewrite string_append_assoc, append_cons, append_empty_l.
Qed.

Lemma contains_space_cons (c : ascii) (s : string) :
  PyStr.contains " " (String c s) = false ->
  String.prefix " " (String c s) = false /\ PyStr.contains " " s = false.
Proof. cbn [PyStr.contains]. intros H. apply orb_false_iff in H. exact H. Qed.

Lemma prefix_space_cons (c : ascii) (s t : string) :
  String.prefix " " (String c s) = String.prefix " " (String c t).
Proof.
  cbn [String.prefix]. destruct (ascii_dec " " c); [|reflexivity].
  now destruct s, t.
Qed.

(** Up to its first space, a text is the first piece of its split. *)
Lemma split_space_first (s : string) :
  forall acc r,
    PyStr.contains " " s = false ->
    PyStr.split_aux " " 0 acc (s +:+ String " " r)
    = (PyStr.rev_acc acc EmptyString +:+ s) :: PyStr.split_aux " " 0 EmptyString r.
Proof.
  induction s as [|c s IH]; intros acc r H.
  - rewrite append_empty_l, append_empty_r. cbn [PyStr.split_aux].
    replace (String.prefix " " (String " " r)) with true
      by (now destruct r).
    reflexivity.
  - apply contains_space_cons in H as [Hp Hs].
    rewrite append_cons. cbn [PyStr.split_aux].
    rewrite (prefix_space_cons c _ s), Hp.
    rewrite (IH (String c acc) r Hs). f_equal. cbn [PyStr.rev_acc].
    rewrite (rev_acc_append acc (String c EmptyString)).
    now rewrite string_append_assoc, append_cons, append_empty_l.
Qed.

Lemma split_no_space (s : string) :
  forall acc,
    PyStr.contains " " s = false ->
    PyStr.split_aux " " 0 acc s = [PyStr.rev_acc acc EmptyString +:+ s].
Proof.
  induction s as [|c s IH]; intros acc H.
  - cbn [PyStr.split_aux]. now rewrite append_empty_r.
  - apply contains_space_cons in H as [Hp Hs]. cbn [PyStr.split_aux].
    rewrite Hp, (IH (String c acc) Hs). cbn [PyStr.rev_acc].
    rewrite (rev_acc_append acc (String c EmptyString)).
    now rewrite string_append_assoc, append_cons, append_empty_l.
Qed.

Lemma first_token (s r : string) :
  PyStr.contains " " s = false ->
  List.hd EmptyString (PyStr.split " " (s +:+ String " " r)) = s /\
  List.hd EmptyString (PyStr.split " " s) = s.
Proof.
  intros H. unfold PyStr.split.
  now rewrite (split_space_first s EmptyString r H), (split_no_space s EmptyString H).
Qed.

(** X8. What follows the first space of a start or stop attribute (the
    time zone offset of the feed) has no influence on the timestamps and
    the start date, whatever it is. *)
Theorem timezone_token_ignored (tz : TimeZone) (start stop r1 r2 : string) :
  PyStr.contains " " start = false ->
  PyStr.contains " " stop = false ->
  PyStr.truthy stop = true ->
  parse_times tz (start +:+ String " " r1) (Some (stop +:+ String " " r2))
  = parse_times tz start (Some stop).
Proof.
  intros H1 H2 Ht. unfold parse_times.
  destruct (first_token start r1 H1) as [-> ->].
  destruct (first_token stop r2 H2) as [-> ->].
  rewrite Ht. destruct stop; [discriminate | reflexivity].
Qed.

Lemma timezone_token_ignored_witness :
  PyStr.contains " " "20240101200000" = false /\
  PyStr.truthy "20240101210000" = true /\
  parse_times UTC ("20240101200000" +:+ String " " "+0100")
    (Some ("20240101210000" +:+ String " " "+0100"))
  = parse_times UTC "20240101200000" (Some "20240101210000").
Proof.
  assert (H1 : PyStr.contains " " "20240101200000" = false) by reflexivity.
  assert (H2 : PyStr.contains " " "20240101210000" = false) by reflexivity.
  assert (H3 : PyStr.truthy "20240101210000" = true) by reflexivity.
  split; [exact H1|]. split; [exact H3|].
  exact (timezone_token_ignored UTC _ _ "+0100" "+0100" H1 H2 H3).
Defined.

(** ** When the cache is not used *)

Lemma download_requested (cache : option File) (w : World) :
  requested (download cache w) = true.
Proof. unfold download. now destruct (response w). Qed.

(** X9. No request is made exactly when the cache file exists, the
    float difference of the clock and its modification time is below
    86400, and it can be read; otherwise the feed is requested. *)
Theorem request_unless_fresh_cache (cache : option File) (now : float) (w : World) :
  requested (downloadAndParseData cache now w) = false <->
  exists f, cache = Some f /\ young now (mtime f) /\ read_ok w = true.
Proof.
  unfold downloadAndParseData, young. destruct cache as [f|].
  - unfold cache_fresh, age.
    destruct (PrimFloat.ltb (PrimFloat.sub now (mtime f)) CACHE_TIME) eqn:Hlt; simpl.
    + destruct (read_ok w) eqn:Hr; simpl.
      * split; [|reflexivity]. intros _. exists f. now rewrite Hlt.
      * rewrite download_requested. split; [discriminate|].
        intros (f' & _ & _ & H). discriminate.
    + rewrite download_requested. split; [discriminate|].
      intros (f' & [= <-] & H & _). congruence.
  - rewrite download_requested. split; [discriminate|].
    intros (f & H & _). discriminate.
Qed.

(** X10. When the feed is requested: a response hands its text to the
    parser whether or not the cache file could be written, and a cache
    file that was written holds that text; a failed request hands on
    nothing and leaves the cache file as it was. *)
Theorem request_outcomes (cache : option File) (now : float) (w : World) :
  requested (downloadAndParseData cache now w) = true ->
  match response w with
  | Ok body =>
      xml_data (downloadAndParseData cache now w) = Some body /\
      (write_ok w = true ->
       cache_after (downloadAndParseData cache now w)
       = Some (mkFile body (write_time w)))
  | Raise _ =>
      xml_data (downloadAndParseData cache now w) = None /\
      cache_after (downloadAndParseData cache now w) = cache
  end.
Proof.
  intros Hreq.
  assert (H : downloadAndParseData cache now w = download cache w).
  { revert Hreq. unfold downloadAndParseData. destruct cache as [f|]; [|reflexivity].
    destruct (cache_fresh (Some f) now && read_ok w); [discriminate | reflexivity]. }
  rewrite H. unfold download. destruct (response w); simpl; [|auto].
  split; [reflexivity|]. now intros ->.
Qed.

Lemma request_outcomes_witness :
  let stale := Some (mkFile EmptyString 0%float) in
  let now := 86400%float in
  let w := mkWorld true (Ok plain_body) false 1%float
             (Some (mkFile EmptyString 1%float)) in
  requested (downloadAndParseData stale now w) = true /\
  xml_data (downloadAndParseData stale now w) = Some plain_body.
Proof.
  intros stale now w.
  assert (H : requested (downloadAndParseData stale now w) = true) by reflexivity.
  split; [exact H|]. exact (proj1 (request_outcomes stale now w H)).
Defined.

(** ** The first line that fits *)

Lemma find_enumerate_from_first {A : Type} (f : nat * A -> bool) (l : list A) :
  forall (k i : nat) (x : A),
    List.find f (enumerate_from k l) = Some (i, x) ->
    forall j y, (k <= j < i)%nat -> l !! (j - k)%nat = Some y -> f (j, y) = false.
Proof.
  induction l as [|z l IH]; intros k i x H j y Hj Hy; simpl in H; [discriminate|].
  destruct (f (k, z)) eqn:Hf.
  - injection H as <- <-. lia.
  - destruct (decide (j = k)) as [->|Hne].
    + rewrite Nat.sub_diag in Hy. simpl in Hy. injection Hy as <-. exact Hf.
    + apply (IH (S k) i x H j y); [lia|].
      replace (j - k)%nat with (S (j - S k)) in Hy by lia. exact Hy.
Qed.

Lemma find_enumerate_from_none {A : Type} (f : nat * A -> bool) (l : list A) :
  forall k, List.find f (enumerate_from k l) = None ->
            forall j y, l !! j = Some y -> f ((k + j)%nat, y) = false.
Proof.
  induction l as [|z l IH]; intros k H j y Hy; [discriminate|]. simpl in H.
  destruct (f (k, z)) eqn:Hf; [discriminate|].
  destruct j as [|j]; simpl in Hy.
  - injection Hy as <-. now rewrite Nat.add_0_r.
  - replace (k + S j)%nat with (S k + j)%nat by lia. now apply IH.
Qed.

(** X11. The search for the line of a programme yields the first line,
    from the top, that is an entry line and fits the programme in title
    and time; it yields nothing exactly when no line does. *)
Theorem find_line_first (tz : TimeZone) (program : Programme.t)
        (epgLines : list string) :
  match find_line tz program epgLines with
  | Some i =>
      (exists line, epgLines !! i = Some line /\ is_entry line = true /\
                    line_matches tz program line = true) /\
      forall j line, (j < i)%nat -> epgLines !! j = Some line ->
                     is_entry line && line_matches tz program line = false
  | None =>
      forall j line, epgLines !! j = Some line ->
                     is_entry line && line_matches tz program line = false
  end.
Proof.
  unfold find_line, enumerate.
  destruct (List.find _ (enumerate_from 0 epgLines)) as [[i x]|] eqn:Hf; simpl.
  - split.
    + apply find_enumerate_from in Hf as (_ & Hl & Hx).
      rewrite Nat.sub_0_r in Hl. apply andb_true_iff in Hx as [He Hm]. eauto.
    + intros j line Hj Hl.
      apply (find_enumerate_from_first _ _ _ _ _ Hf j line); [lia|].
      now rewrite Nat.sub_0_r.
  - intros j line Hl.
    exact (find_enumerate_from_none _ _ 0%nat Hf j line Hl).
Qed.

(** ** The next programme *)

Lemma py_min_fold {A : Type} (key : A -> Z) (l : list A) :
  forall best,
    let r := List.fold_left (fun b y => if key y <? key b then y else b) l best in
    (r = best \/ In r l) /\ key r <= key best /\ forall y, In y l -> key r <= key y.
Proof.
  induction l as [|x l IH]; intros best; simpl.
  - split; [now left|]. split; [lia | intros y []].
  - destruct (key x <? key best) eqn:Hlt.
    + apply Z.ltb_lt in Hlt. destruct (IH x) as (Hin & Hle & Hall).
      split; [right; destruct Hin as [->|Hin]; auto|]. split; [lia|].
      intros y [<-|Hy]; [exact Hle | now apply Hall].
    + apply Z.ltb_ge in Hlt. destruct (IH best) as (Hin & Hle & Hall).
      split; [destruct Hin as [->|Hin]; auto|]. split; [exact Hle|].
      intros y [<-|Hy]; [lia | now apply Hall].
Qed.

Lemma py_min_spec {A : Type} (key : A -> Z) (x : A) (l : list A) :
  In (py_min key x l) (x :: l) /\
  forall y, In y (x :: l) -> key (py_min key x l) <= key y.
Proof.
  destruct (py_min_fold key l x) as (Hin & Hle & Hall). unfold py_min. split.
  - destruct Hin as [->|Hin]; [now left | now right].
  - intros y [<-|Hy]; [exact Hle | now apply Hall].
Qed.

(** X12. When the first search yields no line and the channel has
    programmes whose start date is today's or later (as text), the second
    search looks for the line of one of them that starts earliest, and the
    cursor goes to that line, or stays at 0 when the line is not found. *)
Theorem next_upcoming_earliest (tz : TimeZone) (programs : list Programme.t)
        (epgLines : list string) (now : Q) (current_date : string) :
  active_match tz programs epgLines now current_date = None ->
  future_programs programs current_date <> [] ->
  exists p,
    In p programs /\
    String.leb current_date (Programme.start_date p) = true /\
    (forall q, In q programs ->
               String.leb current_date (Programme.start_date q) = true ->
               Programme.start_timestamp p <= Programme.start_timestamp q) /\
    next_upcoming tz programs epgLines current_date = find_line tz p epgLines /\
    current_index tz programs epgLines now current_date
    = default 0%nat (find_line tz p epgLines).
Proof.
  intros Hact Hne. unfold current_index, next_upcoming. rewrite Hact.
  assert (Hf : forall q, In q (future_programs programs current_date) <->
                         In q programs /\
                         String.leb current_date (Programme.start_date q) = true).
  { intros q. unfold future_programs. apply filter_In. }
  destruct (future_programs programs current_date) as [|x l]; [congruence|].
  destruct (py_min_spec Programme.start_timestamp x l) as [Hin Hmin].
  exists (py_min Programme.start_timestamp x l).
  apply Hf in Hin as [Hin Hdate]. repeat split; try assumption.
  intros q Hq Hqd. apply Hmin. apply Hf. now split.
Qed.

Lemma next_upcoming_earliest_witness :
  active_match UTC [news] news_lines five_o_clock "20240101" = None /\
  future_programs [news] "20240101" <> [] /\
  exists p,
    In p [news] /\
    current_index UTC [news] news_lines five_o_clock "20240101"
    = default 0%nat (find_line UTC p news_lines).
Proof.
  assert (H1 : active_match UTC [news] news_lines five_o_clock "20240101" = None)
    by (vm_compute; reflexivity).
  assert (H2 : future_programs [news] "20240101" <> []) by (vm_compute; congruence).
  split; [exact H1|]. split; [exact H2|].
  destruct (next_upcoming_earliest UTC [news] news_lines five_o_clock "20240101"
              H1 H2) as (p & Hin & _ & _ & _ & Hidx).
  exists p. split; [exact Hin | exact Hidx].
Defined.

(** ** A channel without programmes *)

(** X13. For a channel under the cursor whose name is not empty and that
    has no list in the index, or an empty one, [updateEPGAndPicon] shows
    the single line "No EPG data for channel:" followed by the name and
    puts the cursor on it, whatever the clock. *)
Theorem no_programmes_one_line (tz : TimeZone)
        (data : gmap string (list Programme.t)) (screen : Screen.t)
        (channel_name : string) (now : Q) (current_date : string) :
  PyStr.truthy channel_name = true ->
  default [] (data !! channel_name) = [] ->
  updateEPGAndPicon tz data screen (Some channel_name) now current_date
  = Ok (Screen.mk ["No EPG data for channel: " +:+ channel_name] 0
          ["No EPG data for channel: " +:+ channel_name]).
Proof.
  intros Hname H. unfold updateEPGAndPicon, getEPGFromData. rewrite Hname, H.
  cbn [rbind]. reflexivity.
Qed.

Lemma no_programmes_one_line_witness :
  PyStr.truthy "ZDF" = true /\
  default [] ((∅ : gmap string (list Programme.t)) !! "ZDF") = [] /\
  updateEPGAndPicon UTC ∅ (Screen.mk [] 3 []) (Some "ZDF") half_past_eight
    "20240101"
  = Ok (Screen.mk ["No EPG data for channel: " +:+ "ZDF"] 0
          ["No EPG data for channel: " +:+ "ZDF"]).
Proof.
  assert (H0 : PyStr.truthy "ZDF" = true) by reflexivity.
  assert (H : default [] ((∅ : gmap string (list Programme.t)) !! "ZDF") = [])
    by reflexivity.
  split; [exact H0|]. split; [exact H|].
  exact (no_programmes_one_line UTC ∅ (Screen.mk [] 3 []) "ZDF" half_past_eight
           "20240101" H0 H).
Defined.

(** X15. Without a channel under the cursor (an empty channel list, or
    an empty title) the pane shows the one line "Select a channel to view
    EPG", and the lines and the cursor kept by the screen stay as they
    are. *)
Theorem nothing_selected (tz : TimeZone) (data : gmap string (list Programme.t))
        (screen : Screen.t) (current : option string) (now : Q)
        (current_date : string) :
  PyStr.truthy_opt current = false ->
  updateEPGAndPicon tz data screen current now current_date
  = Ok (Screen.mk (Screen.epgLines screen) (Screen.epgScrollPos screen)
          ["Select a channel to view EPG"]).
Proof.
  intros H. unfold updateEPGAndPicon. destruct current as [name|]; [|reflexivity].
  simpl in H. now rewrite H.
Qed.

Lemma nothing_selected_witness :
  PyStr.truthy_opt (Some EmptyString) = false /\
  updateEPGAndPicon UTC {["" := [news]]} (Screen.mk news_lines 1 news_lines)
    (Some EmptyString) half_past_eight "20240101"
  = Ok (Screen.mk news_lines 1 ["Select a channel to view EPG"]).
Proof.
  assert (H : PyStr.truthy_opt (Some EmptyString) = false) by reflexivity.
  split; [exact H|].
  exact (nothing_selected UTC {["" := [news]]} (Screen.mk news_lines 1 news_lines)
           (Some EmptyString) half_past_eight "20240101" H).
Defined.

(** ** The programmes behind the lines *)

(** The buckets with the programmes themselves in place of their
    entries. *)
Definition programme_buckets (programs : list Programme.t)
  : list (string * list Programme.t) :=
  group_by_date Some programs.

Definition map_buckets {E F : Type} (g : E -> F) (d : list (string * list E))
  : list (string * list F) :=
  List.map (fun kv => (fst kv, List.map g (snd kv))) d.

Lemma bucket_add_map {E F : Type} (g : E -> F) (d : list (string * list E))
      (k : string) (e : E) :
  bucket_add (map_buckets g d) k (g e) = map_buckets g (bucket_add d k e).
Proof.
  induction d as [|[k0 es] d IH]; simpl; [reflexivity|].
  destruct (String.eqb k0 k); simpl.
  - now rewrite map_app.
  - now rewrite IH.
Qed.

Lemma bucket_map {E F : Type} (g : E -> F) (d : list (string * list E)) (k : string) :
  bucket (map_buckets g d) k = List.map g <$> bucket d k.
Proof.
  induction d as [|[k0 es] d IH]; simpl; [reflexivity|].
  now destruct (String.eqb k0 k).
Qed.

Lemma map_buckets_keys {E F : Type} (g : E -> F) (d : list (string * list E)) :
  List.map fst (map_buckets g d) = List.map fst d.
Proof. unfold map_buckets. rewrite map_map. now apply map_ext. Qed.

(** When every programme renders, the buckets of entries are the buckets
    of programmes, rendered. *)
Lemma group_by_date_total {E : Type} (render : Programme.t -> option E)
      (g : Programme.t -> E) (programs : list Programme.t) :
  (forall p, In p programs -> render p = Some (g p)) ->
  group_by_date render programs = map_buckets g (programme_buckets programs).
Proof.
  unfold programme_buckets. rewrite !group_by_date_fold.
  change (@nil (string * list E)) with (map_buckets g []).
  generalize (@nil (string * list Programme.t)) as d.
  induction programs as [|x l IH]; intros d H; simpl; [reflexivity|].
  unfold group_step at 2 4. rewrite (H x (or_introl eq_refl)).
  rewrite bucket_add_map. apply IH. intros p Hp. apply H. now right.
Qed.

Lemma programme_buckets_fold_lookup (programs : list Programme.t) :
  forall d k,
    default [] (bucket (List.fold_left (group_step Some) programs d) k)
    = default [] (bucket d k)
      ++ List.filter (fun p => String.eqb (Programme.start_date p) k) programs.
Proof.
  induction programs as [|x l IH]; intros d k; simpl.
  - now rewrite app_nil_r.
  - rewrite IH. unfold group_step. rewrite bucket_add_lookup.
    destruct (String.eqb (Programme.start_date x) k) eqn:Hk; [|reflexivity].
    apply String.eqb_eq in Hk. subst. simpl. now rewrite <- app_assoc.
Qed.

(** A bucket holds the programmes of its date, in the order of the list. *)
Lemma programme_buckets_lookup (programs : list Programme.t) (k : string) :
  default [] (bucket (programme_buckets programs) k)
  = List.filter (fun p => String.eqb (Programme.start_date p) k) programs.
Proof.
  unfold programme_buckets. rewrite group_by_date_fold.
  now rewrite programme_buckets_fold_lookup.
Qed.

Lemma programme_buckets_fold_concat (programs : list Programme.t) :
  forall d,
    Permutation
      (List.concat (List.map snd (List.fold_left (group_step Some) programs d)))
      (List.concat (List.map snd d) ++ programs).
Proof.
  induction programs as [|x l IH]; intros d; simpl.
  - now rewrite app_nil_r.
  - rewrite IH. unfold group_step. rewrite bucket_add_concat.
    now rewrite <- app_assoc.
Qed.

(** The buckets hold every programme once. *)
Lemma programme_buckets_concat (programs : list Programme.t) :
  Permutation (List.concat (List.map snd (programme_buckets programs))) programs.
Proof.
  unfold programme_buckets. rewrite group_by_date_fold.
  now rewrite programme_buckets_fold_concat.
Qed.

(** ** Blocks of lines *)

(** The lines of a date: its separator and the entries of its
    programmes. *)
Fixpoint entries_of (tz : TimeZone) (ps : list Programme.t) : list string :=
  match ps with
  | [] => []
  | p :: ps' =>
      match entry_line tz p with
      | Some entry => entry :: entries_of tz ps'
      | None => entries_of tz ps'
      end
  end.

Definition block_lines (tz : TimeZone) (b : datetime * list Programme.t)
  : list string :=
  ("--- " +:+ strftime_dmY (fst b) +:+ " ---") :: entries_of tz (snd b).

(** One calendar date before another. *)
Definition date_lt (a b : datetime) : Prop :=
  year a < year b \/
  (year a = year b /\ (month a < month b \/ (month a = month b /\ day a < day b))).

Definition date_key (k : string) : datetime :=
  default (mkDatetime 0 0 0 0 0 0) (strptime_Ymd k).

Definition entry_text (tz : TimeZone) (p : Programme.t) : string :=
  default EmptyString (entry_line tz p).

(** A key that [strftime] wrote for a date the constructor accepts, of
    the year 1000 or later. *)
Definition is_date_key (k : string) : Prop :=
  exists t, valid t = true /\ 1000 <= year t /\ k = strftime_Ymd t /\
            strptime_Ymd k = Some (date_of t).

Lemma entries_of_total (tz : TimeZone) (ps : list Programme.t) :
  Forall (fun p => is_Some (entry_line tz p)) ps ->
  entries_of tz ps = List.map (entry_text tz) ps.
Proof.
  induction 1 as [|p ps [e He] Hps IH]; simpl; [reflexivity|].
  unfold entry_text at 1. now rewrite He, IH.
Qed.

Lemma emit_blocks_blocks (tz : TimeZone) (d : list (string * list Programme.t))
      (dates : list string) :
  (forall k, In k dates ->
             is_Some (strptime_Ymd k) /\ is_Some (bucket d k) /\
             Forall (fun p => is_Some (entry_line tz p)) (default [] (bucket d k))) ->
  emit_blocks (map_buckets (entry_text tz) d) dates
  = Ok (flat_map (block_lines tz)
          (List.map (fun k => (date_key k, default [] (bucket d k))) dates)).
Proof.
  induction dates as [|k dates IH]; intros H; [reflexivity|].
  destruct (H k (or_introl eq_refl)) as ([dt Hdt] & [ps Hps] & Hall).
  cbn [emit_blocks List.map flat_map]. rewrite Hdt, bucket_map, Hps.
  cbn [of_option rbind fmap option_fmap option_map].
  rewrite IH by (intros k' Hk'; apply H; now right).
  cbn [rbind]. unfold block_lines at 2, date_key at 2. rewrite Hdt, Hps in *.
  cbn [fst snd default from_option id] in *.
  now rewrite (entries_of_total tz ps Hall).
Qed.

Lemma date_key_order (k1 k2 : string) :
  is_date_key k1 -> is_date_key k2 ->
  String.leb k1 k2 = true -> k1 <> k2 ->
  date_lt (date_key k1) (date_key k2).
Proof.
  intros (t1 & Hv1 & Hk1 & -> & Hp1) (t2 & Hv2 & Hk2 & -> & Hp2) Hle Hne.
  unfold date_key. rewrite Hp1, Hp2. cbn [default from_option id].
  unfold String.leb in Hle.
  pose proof (strftime_Ymd_compare t1 t2 Hv1 Hv2 Hk1 Hk2) as Hc.
  destruct (valid_bounds t1 Hv1) as (Hy1 & Hm1 & Hd1).
  destruct (valid_bounds t2 Hv2) as (Hy2 & Hm2 & Hd2).
  unfold date_lt, date_of, ordinal in *. cbn [year month day].
  destruct (Z.compare_spec (year t1 * 10000 + month t1 * 100 + day t1)
                           (year t2 * 10000 + month t2 * 100 + day t2))
    as [Heq|Hlt|Hgt].
  - exfalso. apply Hne. now apply String.compare_eq_iff.
  - lia.
  - rewrite Hc in Hle. discriminate.
Qed.

Lemma StronglySorted_NoDup {A : Type} (R : A -> A -> Prop) (l : list A) :
  StronglySorted R l -> NoDup l ->
  StronglySorted (fun a b => R a b /\ a <> b) l.
Proof.
  induction 1 as [|x l Hl IH Hx]; intros Hnd; constructor;
    inversion Hnd as [|? ? Hnot Hnd']; subst; [now apply IH|].
  rewrite Forall_forall in Hx. rewrite Forall_forall. intros y Hy.
  split; [now apply Hx|]. intros ->. contradiction.
Qed.

Lemma StronglySorted_map_on {A B : Type} (R : A -> A -> Prop) (R' : B -> B -> Prop)
      (P : A -> Prop) (f : A -> B) (l : list A) :
  (forall a b, P a -> P b -> R a b -> R' (f a) (f b)) ->
  StronglySorted R l -> Forall P l -> StronglySorted R' (List.map f l).
Proof.
  intros Hf. induction 1 as [|x l Hl IH Hx]; intros HP; simpl; [constructor|].
  inversion HP as [|? ? Px Pl]; subst. constructor; [now apply IH|].
  rewrite Forall_forall in Hx. rewrite Forall_forall in Pl.
  rewrite Forall_forall. intros y Hy.
  apply list_elem_of_In, in_map_iff in Hy as (a & <- & Ha).
  apply list_elem_of_In in Ha. apply Hf; auto.
Qed.

Lemma programme_wf_key (tz : TimeZone) (p : Programme.t) :
  programme_wf tz p -> four_digit_year p -> is_date_key (Programme.start_date p).
Proof.
  intros H H8. destruct (programme_wf_date tz p H H8) as (t & Hv & Hy & Hd & Hp).
  exists t. auto.
Qed.

Lemma date_key_strftime (k : string) :
  is_date_key k -> strftime_Ymd (date_key k) = k.
Proof.
  intros (t & _ & _ & -> & Hp). unfold date_key. now rewrite Hp.
Qed.

Lemma entry_line_renders (tz : TimeZone) (p : Programme.t) :
  is_Some (fromtimestamp tz (Programme.start_timestamp p)) ->
  is_Some (entry_line tz p).
Proof. intros [local H]. unfold entry_line. rewrite H. now eexists. Qed.

Lemma getEPGFromData_nonempty (tz : TimeZone)
      (data : gmap string (list Programme.t)) (channel_name : string)
      (programs : list Programme.t) :
  data !! channel_name = Some programs -> programs <> [] ->
  getEPGFromData tz data channel_name
  = let epg_by_date :=
      group_by_date (entry_line tz) (py_sorted by_start_timestamp programs) in
    try! result := emit_blocks epg_by_date
                     (py_sorted String.leb (List.map fst epg_by_date)) in
    match result with
    | [] => Ok ["No valid EPG data for channel: " +:+ channel_name]
    | _ => Ok result
    end.
Proof.
  intros H Hne. unfold getEPGFromData. rewrite H. cbn [default from_option id].
  destruct programs; [congruence | reflexivity].
Qed.

(** The lines of a channel whose programmes are well formed, have years
    of four digits, and can all be shown in the time zone of the box. *)
Lemma display_lines_blocks (tz : TimeZone) (data : gmap string (list Programme.t))
      (channel_name : string) (programs : list Programme.t) :
  data !! channel_name = Some programs ->
  programs <> [] ->
  Forall (programme_wf tz) programs ->
  Forall four_digit_year programs ->
  Forall (fun p => is_Some (fromtimestamp tz (Programme.start_timestamp p)))
         programs ->
  exists blocks : list (datetime * list Programme.t),
    getEPGFromData tz data channel_name = Ok (flat_map (block_lines tz) blocks) /\
    StronglySorted date_lt (List.map fst blocks) /\
    Forall (fun b =>
              snd b <> [] /\
              StronglySorted (fun p q => Programme.start_timestamp p
                                         <= Programme.start_timestamp q) (snd b) /\
              Forall (fun p => Programme.start_date p = strftime_Ymd (fst b)) (snd b))
           blocks /\
    Permutation (List.concat (List.map snd blocks)) programs.
Proof.
  intros Hl Hne Hwf H8 Hshow.
  set (sorted := py_sorted by_start_timestamp programs).
  set (d := programme_buckets sorted).
  set (dates := py_sorted String.leb (List.map fst d)).
  assert (Hsorted_in : forall p, In p sorted <-> In p programs)
    by (intros p; apply py_sorted_In).
  assert (Hkey : forall k, In k dates ->
                           exists p, In p programs /\ Programme.start_date p = k).
  { intros k Hk. apply py_sorted_In in Hk.
    apply (group_by_date_keys Some) in Hk as (p & Hp & <-).
    exists p. split; [now apply Hsorted_in | reflexivity]. }
  assert (Hdk : forall k, In k dates -> is_date_key k).
  { intros k Hk. destruct (Hkey k Hk) as (p & Hp & <-).
    apply list_elem_of_In in Hp. rewrite Forall_forall in Hwf, H8.
    apply (programme_wf_key tz); [now apply Hwf | now apply H8]. }
  assert (Hbucket : forall k,
             default [] (bucket d k)
             = List.filter (fun p => String.eqb (Programme.start_date p) k) sorted)
    by (intros k; apply programme_buckets_lookup).
  exists (List.map (fun k => (date_key k, default [] (bucket d k))) dates).
  split; [|split; [|split]].
  - rewrite (getEPGFromData_nonempty tz data channel_name programs Hl Hne).
    cbv zeta. fold sorted.
    rewrite (group_by_date_total (entry_line tz) (entry_text tz) sorted).
    2:{ intros p Hp. apply Hsorted_in in Hp. rewrite Forall_forall in Hshow.
        destruct (entry_line_renders tz p) as [e He].
        - apply Hshow. now apply list_elem_of_In.
        - unfold entry_text. now rewrite He. }
    fold d. rewrite map_buckets_keys. fold dates.
    rewrite emit_blocks_blocks.
    + cbn [rbind].
      destruct dates as [|k ks] eqn:Hdates; [|reflexivity].
      exfalso. apply Hne.
      assert (Hd : d = []).
      { assert (Hk : List.map fst d = []).
        { apply Permutation_nil. rewrite <- Hdates. apply py_sorted_perm. }
        now destruct d. }
      pose proof (programme_buckets_concat sorted) as Hs. fold d in Hs.
      rewrite Hd in Hs. apply Permutation_nil in Hs.
      pose proof (py_sorted_perm by_start_timestamp programs) as Hp.
      fold sorted in Hp. rewrite Hs in Hp. now apply Permutation_nil.
    + intros k Hk. split; [destruct (Hdk k Hk) as (t & _ & _ & _ & ->); now eexists|].
      split; [apply bucket_of_key;
              exact (proj1 (py_sorted_In String.leb k (List.map fst d)) Hk)|].
      rewrite Hbucket, Forall_forall. intros p Hp.
      apply list_elem_of_In, filter_In in Hp as [Hp _]. apply Hsorted_in in Hp.
      apply entry_line_renders. rewrite Forall_forall in Hshow. apply Hshow.
      now apply list_elem_of_In.
  - rewrite map_map. cbn [fst].
    apply (StronglySorted_map_on
             (fun a b => String.leb a b = true /\ a <> b) date_lt is_date_key).
    + intros a b Ha Hb [Hle Hab]. now apply date_key_order.
    + apply StronglySorted_NoDup.
      * apply py_sorted_sorted; [apply String.leb_total | apply string_leb_trans].
      * unfold dates. rewrite (py_sorted_perm String.leb (List.map fst d)).
        apply (group_by_date_NoDup Some).
    + rewrite Forall_forall. intros k Hk. apply Hdk. now apply list_elem_of_In.
  - rewrite Forall_forall. intros b Hb.
    apply list_elem_of_In, in_map_iff in Hb as (k & <- & Hk). cbn [fst snd].
    rewrite Hbucket. split; [|split].
    + destruct (Hkey k Hk) as (p & Hp & Hd). intros Hnil.
      assert (Hin : In p (List.filter
                            (fun q => String.eqb (Programme.start_date q) k) sorted)).
      { apply filter_In. split; [now apply Hsorted_in|]. now apply String.eqb_eq. }
      rewrite Hnil in Hin. exact Hin.
    + apply StronglySorted_filter, by_start_timestamp_sorted.
    + rewrite Forall_forall. intros p Hp.
      apply list_elem_of_In, filter_In in Hp as [_ Hp]. apply String.eqb_eq in Hp.
      rewrite Hp. symmetry. now apply date_key_strftime, Hdk.
  - rewrite map_map. cbn [snd].
    transitivity (List.concat (List.map snd d)).
    + pose proof (f_equal (List.map snd)
                    (buckets_of_keys d (group_by_date_NoDup Some sorted))) as Hd.
      rewrite map_map in Hd. cbn [snd] in Hd. rewrite <- Hd.
      rewrite <- !flat_map_concat_map.
      apply Permutation_flat_map, py_sorted_perm.
    + unfold d. rewrite programme_buckets_concat. apply py_sorted_perm.
Qed.

(** X14. For a channel of the index that [parseXMLData] leaves, with at
    least one programme, all of which have a start date of eight
    characters (a year of four digits) and can be shown in the time zone
    of the box: the lines that [getEPGFromData] returns are blocks, one
    per start date, each a separator followed by the entries of the
    programmes of that date; the dates of the blocks increase strictly in
    calendar order; inside a block the programmes are in non-decreasing
    order of their start timestamps; and the blocks hold every programme
    of the channel exactly once. *)
Theorem display_lines_ordered (lxml : bool) (tz : TimeZone) (tree : node)
        (channel_name : string) (programs : list Programme.t) :
  epgData (fst (parseXMLData lxml tz tree)) !! channel_name = Some programs ->
  programs <> [] ->
  Forall four_digit_year programs ->
  Forall (fun p => is_Some (fromtimestamp tz (Programme.start_timestamp p)))
         programs ->
  exists blocks : list (datetime * list Programme.t),
    getEPGFromData tz (epgData (fst (parseXMLData lxml tz tree))) channel_name
    = Ok (flat_map (block_lines tz) blocks) /\
    StronglySorted date_lt (List.map fst blocks) /\
    Forall (fun b =>
              snd b <> [] /\
              StronglySorted (fun p q => Programme.start_timestamp p
                                         <= Programme.start_timestamp q) (snd b) /\
              Forall (fun p => Programme.start_date p = strftime_Ymd (fst b)) (snd b))
           blocks /\
    Permutation (List.concat (List.map snd blocks)) programs.
Proof.
  intros Hl Hne H8 Hshow.
  apply display_lines_blocks; try assumption.
  exact (parse_index_wf lxml tz tree channel_name programs Hl).
Qed.

Lemma display_lines_ordered_witness :
  epgData (fst (parseXMLData true UTC feed_same_title)) !! "Das Erste"
  = Some [news; film] /\
  Forall four_digit_year [news; film] /\
  exists blocks : list (datetime * list Programme.t),
    getEPGFromData UTC (epgData (fst (parseXMLData true UTC feed_same_title)))
      "Das Erste"
    = Ok (flat_map (block_lines UTC) blocks) /\
    StronglySorted date_lt (List.map fst blocks).
Proof.
  assert (H : epgData (fst (parseXMLData true UTC feed_same_title)) !! "Das Erste"
              = Some [news; film]) by (vm_compute; reflexivity).
  assert (H8 : Forall four_digit_year [news; film])
    by (repeat constructor).
  split; [exact H|]. split; [exact H8|].
  destruct (display_lines_ordered true UTC feed_same_title "Das Erste"
              [news; film] H) as (blocks & Hlines & Hdates & _).
  - discriminate.
  - exact H8.
  - repeat constructor; vm_compute; eexists; reflexivity.
  - exists blocks. split; assumption.
Defined.

(** ** The entry of a programme *)

(** The entry in the words of the source: time, title, category in
    brackets, and, when the description is not empty, a line break, two
    spaces and the description. *)
Definition entry_format (local : datetime) (p : Programme.t) : string :=
  strftime_HM local +:+ " - " +:+ Programme.title p +:+ " ("
  +:+ Programme.category p +:+ ")"
  +:+ (if decide (Programme.desc p = EmptyString) then EmptyString
       else nl +:+ "  " +:+ Programme.desc p).

Lemma entry_line_format (tz : TimeZone) (p : Programme.t) (local : datetime) :
  fromtimestamp tz (Programme.start_timestamp p) = Some local ->
  entry_line tz p = Some (entry_format local p).
Proof.
  intros H. unfold entry_line, entry_format. rewrite H. f_equal.
  destruct (Programme.desc p) as [|c s] eqn:Hd; simpl.
  - reflexivity.
  - destruct (decide (String c s = EmptyString)) as [Heq|_]; [discriminate|].
    now rewrite !string_append_assoc.
Qed.

Example news_entry :
  entry_format (mkDatetime 2024 1 1 20 0 0) news
  = "20:00 - News ()" +:+ nl +:+ "  Nema opisa".
Proof. reflexivity. Qed.

(** ** Every programme that renders has its entry *)

Section Rendered.
Context {E : Type} (render : Programme.t -> option E).

(** What the first loop puts under the key [k]. *)
Definition rendered (k : string) (programs : list Programme.t) : list E :=
  flat_map (fun p => if String.eqb (Programme.start_date p) k
                     then option_list (render p) else []) programs.

Lemma group_fold_lookup (programs : list Programme.t) :
  forall d k,
    default [] (bucket (List.fold_left (group_step render) programs d) k)
    = default [] (bucket d k) ++ rendered k programs.
Proof.
  induction programs as [|x l IH]; intros d k; simpl.
  - now rewrite app_nil_r.
  - rewrite IH. unfold group_step. destruct (render x) as [e|]; simpl.
    + rewrite bucket_add_lookup.
      destruct (String.eqb (Programme.start_date x) k) eqn:Hk; [|reflexivity].
      apply String.eqb_eq in Hk. subst. simpl. now rewrite <- app_assoc.
    + now destruct (String.eqb (Programme.start_date x) k).
Qed.

Lemma rendered_In (programs : list Programme.t) (p : Programme.t) (e : E) :
  In p programs -> render p = Some e ->
  In e (rendered (Programme.start_date p) programs).
Proof.
  intros Hin He. apply in_flat_map. exists p. split; [assumption|].
  rewrite String.eqb_refl, He. now left.
Qed.

Lemma bucket_key (d : list (string * list E)) (k : string) (es : list E) :
  bucket d k = Some es -> In k (List.map fst d).
Proof.
  induction d as [|[k0 es0] d IH]; simpl; [discriminate|].
  destruct (String.eqb k0 k) eqn:Hk; [|right; now apply IH].
  apply String.eqb_eq in Hk. now left.
Qed.

(** The entry of a programme that renders is in the bucket of its start
    date. *)
Lemma group_by_date_In (programs : list Programme.t) (p : Programme.t) (e : E) :
  In p programs -> render p = Some e ->
  exists es, bucket (group_by_date render programs) (Programme.start_date p)
             = Some es /\ In e es.
Proof.
  intros Hin He. rewrite group_by_date_fold.
  pose proof (group_fold_lookup programs [] (Programme.start_date p)) as H.
  simpl in H.
  pose proof (rendered_In programs p e Hin He) as Hr. rewrite <- H in Hr.
  destruct (bucket _ _) as [es|]; [|destruct Hr]. now exists es.
Qed.
End Rendered.

Lemma emit_blocks_In (d : list (string * list string)) (dates : list string) :
  forall lines k es e,
    emit_blocks d dates = Ok lines ->
    In k dates -> bucket d k = Some es -> In e es -> In e lines.
Proof.
  induction dates as [|k0 dates IH]; intros lines k es e H Hk Hb He; [destruct Hk|].
  simpl in H.
  destruct (strptime_Ymd k0) as [date|]; simpl in H; [|discriminate].
  destruct (bucket d k0) as [es0|] eqn:Hb0; simpl in H; [|discriminate].
  destruct (emit_blocks d dates) as [more|] eqn:Hm; simpl in H; [|discriminate].
  injection H as <-. right. apply in_or_app.
  destruct Hk as [->|Hk].
  - left. rewrite Hb in Hb0. now injection Hb0 as <-.
  - right. now apply (IH more k es e).
Qed.

(** The lines of a channel hold the entry of each of its programmes that
    renders. *)
Lemma getEPGFromData_entry (tz : TimeZone) (data : gmap string (list Programme.t))
      (channel_name : string) (epgLines : list string) (p : Programme.t)
      (entry : string) :
  getEPGFromData tz data channel_name = Ok epgLines ->
  In p (default [] (data !! channel_name)) ->
  entry_line tz p = Some entry ->
  In entry epgLines.
Proof.
  intros Hg Hin He.
  destruct (data !! channel_name) as [programs|] eqn:Hl; [|destruct Hin].
  cbn [default from_option id] in Hin.
  assert (Hne : programs <> []) by (intros ->; destruct Hin).
  rewrite (getEPGFromData_nonempty tz data channel_name programs Hl Hne) in Hg.
  cbv zeta in Hg.
  set (d := group_by_date (entry_line tz) (py_sorted by_start_timestamp programs))
    in *.
  destruct (group_by_date_In (entry_line tz)
              (py_sorted by_start_timestamp programs) p entry) as (es & Hb & Hes);
    [now apply py_sorted_In | exact He |]. fold d in Hb.
  destruct (emit_blocks d (py_sorted String.leb (List.map fst d)))
    as [result|] eqn:Hr; simpl in Hg; [|discriminate].
  assert (Hres : In entry result).
  { apply (emit_blocks_In d _ result (Programme.start_date p) es entry Hr);
      [|exact Hb | exact Hes].
    apply py_sorted_In. exact (bucket_key d _ es Hb). }
  destruct result; [destruct Hres|]. now injection Hg as <-.
Qed.

(** C6, as the code has it. In the lines that [getEPGFromData] returns
    for a channel of the index that [parseXMLData] leaves, every programme
    of the channel whose start the time zone of the box can show has its
    entry: the local time of its start as HH:MM, " - ", its title, its
    category in brackets, and a second line with the description exactly
    when the description is not the empty text.  The text "Nema opisa"
    that the parser stores for a missing description is shown like any
    other. *)
Theorem entry_shows_description (lxml : bool) (tz : TimeZone) (tree : node)
        (channel_name : string) (epgLines : list string) (p : Programme.t)
        (local : datetime) :
  getEPGFromData tz (epgData (fst (parseXMLData lxml tz tree))) channel_name
  = Ok epgLines ->
  In p (default [] (epgData (fst (parseXMLData lxml tz tree)) !! channel_name)) ->
  fromtimestamp tz (Programme.start_timestamp p) = Some local ->
  In (strftime_HM local +:+ " - " +:+ Programme.title p +:+ " ("
      +:+ Programme.category p +:+ ")"
      +:+ (if decide (Programme.desc p = EmptyString) then EmptyString
           else nl +:+ "  " +:+ Programme.desc p))
     epgLines.
Proof.
  intros Hg Hin Hlocal.
  apply (getEPGFromData_entry tz (epgData (fst (parseXMLData lxml tz tree)))
           channel_name epgLines p); [exact Hg | exact Hin |].
  exact (entry_line_format tz p local Hlocal).
Qed.

Lemma entry_shows_description_witness :
  getEPGFromData UTC (epgData (fst (parseXMLData true UTC feed))) "Das Erste"
  = Ok news_lines /\
  In news (default [] (epgData (fst (parseXMLData true UTC feed)) !! "Das Erste")) /\
  fromtimestamp UTC (Programme.start_timestamp news)
  = Some (mkDatetime 2024 1 1 20 0 0) /\
  In ("20:00 - News ()" +:+ nl +:+ "  Nema opisa") news_lines.
Proof.
  assert (H1 : getEPGFromData UTC (epgData (fst (parseXMLData true UTC feed)))
                 "Das Erste" = Ok news_lines) by (vm_compute; reflexivity).
  assert (H2 : In news (default [] (epgData (fst (parseXMLData true UTC feed))
                                    !! "Das Erste")))
    by (vm_compute; left; reflexivity).
  assert (H3 : fromtimestamp UTC (Programme.start_timestamp news)
               = Some (mkDatetime 2024 1 1 20 0 0)) by reflexivity.
  split; [exact H1|]. split; [exact H2|]. split; [exact H3|].
  exact (entry_shows_description true UTC feed "Das Erste" news_lines news _
           H1 H2 H3).
Defined.

(** C6, as stated, fails: [news_el] has no desc child, the parser stores
    the fallback description for it, and the entry of the programme has
    the second line with that text. *)
Lemma fallback_description_shown :
  find news_el "desc" = None /\
  xpath_text news_el "desc" = [] /\
  fst (parseXMLData true UTC feed)
  = mkParseState [das_erste] {["Das Erste" := [news]]} /\
  Programme.desc news = "Nema opisa" /\
  getEPGFromData UTC (epgData (fst (parseXMLData true UTC feed))) "Das Erste"
  = Ok ["--- 01.01.2024 ---"; "20:00 - News ()" +:+ nl +:+ "  Nema opisa"].
Proof. repeat split; vm_compute; reflexivity. Qed.

(** ** Years of fewer than four digits *)

(** C9. The builder raises on a channel with a programme of the year 10:
    the parser stores the start date as [strftime] writes it, "100102",
    the second loop of [getEPGFromData] reads it back with [strptime],
    which wants four digits for the year, and the [ValueError] leaves
    [getEPGFromData] and [updateEPGAndPicon]: no list of lines is
    returned and no cursor is computed. *)
Lemma builder_raises_on_short_year :
  parseXMLData true UTC feed_old
  = (mkParseState [das_erste] {["Das Erste" := [old]]}, Parsed) /\
  parseXMLData false UTC feed_old
  = (mkParseState [das_erste] {["Das Erste" := [old]]}, Parsed) /\
  strptime_Ymd (Programme.start_date old) = None /\
  getEPGFromData UTC {["Das Erste" := [old]]} "Das Erste" = Raise ValueError /\
  updateEPGAndPicon UTC {["Das Erste" := [old]]} (Screen.mk [] 0 [])
    (Some "Das Erste") half_past_eight "20240101"
  = Raise ValueError.
Proof. repeat split; vm_compute; reflexivity. Qed.

(** C4. The blocks of a channel with a programme of 5 December 2021 and
    one of 21 November 202 are not in the order of their dates: the key
    of the second, "2021121", sorts after "20211205", and is read back as
    1 December 2021, so that the separators show 05.12.2021 before
    01.12.2021. *)
Lemma blocks_out_of_order :
  parseXMLData true UTC feed_mixed
  = (mkParseState [das_erste] {["Das Erste" := mixed]}, Parsed) /\
  parseXMLData false UTC feed_mixed
  = (mkParseState [das_erste] {["Das Erste" := mixed]}, Parsed) /\
  getEPGFromData UTC {["Das Erste" := mixed]} "Das Erste"
  = Ok ["--- 05.12.2021 ---"; "20:00 - A ()" +:+ nl +:+ "  Nema opisa";
        "--- 01.12.2021 ---"; "20:00 - B ()" +:+ nl +:+ "  Nema opisa"].
Proof. repeat split; vm_compute; reflexivity. Qed.

(** ** The index as a function of the feed *)


















(** ** Channels that share a title, end to end *)




(** ** Aliases of titles with characters beyond U+00FF *)

Section UnicodeAlias.
Variable db : Unicode.database.









End UnicodeAlias.



(** On the strings of the model the two definitions of
    [clean_channel_name] agree. *)
Lemma u_kept_ascii (a : ascii) :
  Unicode.kept Unicode.python (N_of_ascii a)
  = Some (if PyStr.isalnum a || Ascii.eqb a "."
          then [N_of_ascii (PyStr.lower a)] else []).
Proof. destruct a as [[] [] [] [] [] [] [] []]; reflexivity. Qed.

Lemma python_ascii (a : ascii) :
  Unicode.python (N_of_ascii a)
  = Some (Unicode.mkCharacter (PyStr.isalnum a) [N_of_ascii (PyStr.lower a)]
            (PyStr.isspace a)).
Proof.
  unfold Unicode.python.
  replace (N_of_ascii a <=? 255)%N with true
    by (symmetry; apply N.leb_le; pose proof (N_ascii_bounded a); lia).
  now rewrite ascii_N_embedding.
Qed.

Lemma codes_append (s t : string) :
  Unicode.codes (s +:+ t) = Unicode.codes s ++ Unicode.codes t.
Proof.
  unfold Unicode.codes. induction s as [|c s IH]; [reflexivity|].
  rewrite append_cons. cbn [list_ascii_of_string List.map app]. now rewrite IH.
Qed.

Lemma u_join_ascii (name : list ascii) :
  Unicode.join Unicode.python (List.map N_of_ascii name)
  = Some (Unicode.codes
            (PyStr.concat
               (List.map (fun e => if PyStr.isalnum e || Ascii.eqb e "."
                                   then String (PyStr.lower e) EmptyString
                                   else EmptyString) name))).
Proof.
  induction name as [|e name IH]; [reflexivity|].
  cbn [List.map Unicode.join PyStr.concat]. rewrite u_kept_ascii, IH, codes_append.
  now destruct (PyStr.isalnum e || Ascii.eqb e ".").
Qed.

Lemma u_lstrip_ascii (s : string) :
  Unicode.lstrip Unicode.python (Unicode.codes s)
  = Some (Unicode.codes (PyStr.lstrip s)).
Proof.
  induction s as [|c s IH]; [reflexivity|].
  unfold Unicode.codes in *. cbn [list_ascii_of_string List.map Unicode.lstrip].
  rewrite python_ascii. cbn [Unicode.isspace PyStr.lstrip].
  now destruct (PyStr.isspace c).
Qed.

Lemma u_rstrip_ascii (s : string) :
  Unicode.rstrip Unicode.python (Unicode.codes s)
  = Some (Unicode.codes (PyStr.rstrip s)).
Proof.
  induction s as [|c s IH]; [reflexivity|].
  unfold Unicode.codes in *. cbn [list_ascii_of_string List.map Unicode.rstrip].
  rewrite python_ascii, IH. cbn [Unicode.isspace PyStr.rstrip].
  destruct (PyStr.rstrip s); cbn [list_ascii_of_string List.map];
    [now destruct (PyStr.isspace c) | reflexivity].
Qed.

(** On the strings of the model, whose characters are at most U+00FF,
    [clean_channel_name] is [Unicode.clean_channel_name] with Python's
    table. *)
Lemma clean_channel_name_codes (name : string) :
  Unicode.clean_channel_name Unicode.python (Unicode.codes name)
  = Some (Unicode.codes (clean_channel_name name)).
Proof.
  unfold Unicode.clean_channel_name, clean_channel_name, PyStr.strip.
  unfold Unicode.codes at 1. now rewrite u_join_ascii, u_lstrip_ascii, u_rstrip_ascii.
Qed.

(** ** Starts that have no timestamp, and children that are missing *)

(** X16. A programme element whose start parses to a datetime for which
    [timestamp()] raises [ValueError] (in UTC: a time on 1 January of the
    year 1) is not stored: the round leaves the state as it is (unless a
    child without text raised [AttributeError] before the times were
    looked at). *)
Theorem timestamp_failure_drops (lxml : bool) (tz : TimeZone) (e : node)
        (start : string) (t : datetime) (st : ParseState) :
  get e "start" = Some start ->
  strptime_YmdHMS (List.hd EmptyString (PyStr.split " " start)) = Some t ->
  timestamp tz t = None ->
  program_body lxml tz e st = Ok st \/
  program_body lxml tz e st = Raise AttributeError.
Proof.
  intros Hstart Ht Hts.
  assert (Hpt : parse_times tz start (get e "stop") = Raise ValueError).
  { unfold parse_times. rewrite Ht. cbn [of_option rbind]. now rewrite Hts. }
  unfold program_body. rewrite Hstart, Hpt.
  destruct (get e "channel") as [cid|]; [|now left].
  match goal with
  | |- context [if negb ?b then _ else _] => destruct b; simpl; [|now left]
  end.
  destruct (next_channel (channelData st) cid); [|now left].
  unfold child_text, text_strip.
  repeat match goal with
         | |- context [if lxml then _ else _] => destruct lxml
         | |- context [match ?x with _ => _ end] =>
             match x with
             | xpath_text _ _ => destruct x
             | find _ _ => destruct x
             | text _ => destruct x
             end
         end; simpl; auto.
Qed.

Lemma timestamp_failure_drops_witness :
  let first_el := programme_el "de1" "00010101000000 +0000" "" "First" in
  let st := mkParseState [das_erste] {["Das Erste" := []]} in
  get first_el "start" = Some "00010101000000 +0000" /\
  strptime_YmdHMS (List.hd EmptyString (PyStr.split " " "00010101000000 +0000"))
  = Some (mkDatetime 1 1 1 0 0 0) /\
  timestamp UTC (mkDatetime 1 1 1 0 0 0) = None /\
  (program_body true UTC first_el st = Ok st \/
   program_body true UTC first_el st = Raise AttributeError).
Proof.
  intros first_el st.
  assert (H1 : get first_el "start" = Some "00010101000000 +0000") by reflexivity.
  assert (H2 : strptime_YmdHMS
                 (List.hd EmptyString (PyStr.split " " "00010101000000 +0000"))
               = Some (mkDatetime 1 1 1 0 0 0)) by reflexivity.
  assert (H3 : timestamp UTC (mkDatetime 1 1 1 0 0 0) = None) by reflexivity.
  split; [exact H1|]. split; [exact H2|]. split; [exact H3|].
  exact (timestamp_failure_drops true UTC first_el _ _ st H1 H2 H3).
Defined.




